(** * Credit approval engine: scoring, rate correction, installment, eligibility

    Shallow embedding of [loans/utils.py], [loans/models.py] and the
    registration path of [loans/serializers.py].

    Numbers are modelled as Python has them:
    - [int] as [Z];
    - [float] as the kernel's binary64 [PrimFloat.float];
    - [decimal.Decimal] as a coefficient and a power of ten, with the
      default context (28 significant digits, ROUND_HALF_EVEN). *)

From Stdlib Require Import ZArith List Bool String Lia.
From Stdlib Require Import Floats Uint63 FloatLemmas QArith Qminmax Qpower.
Import ListNotations.

Local Open Scope Z_scope.

(** ** Python numbers: [int] and [float] mixed *)

Module Py.

(** A value of the numeric tower that [calculate_credit_score] handles. *)
Inductive num : Type :=
| PyInt (z : Z)
| PyFloat (f : float).

(** The binary64 nearest to the fraction [n / d], ties to even. *)
Definition float_of_frac (n : Z) (d : positive) : float :=
  SF2Prim
    match n with
    | Z0 => S754_zero false
    | Zpos p =>
        SFdiv FloatOps.prec emax (S754_finite false p 0) (S754_finite false d 0)
    | Zneg p =>
        SFdiv FloatOps.prec emax (S754_finite true p 0) (S754_finite false d 0)
    end.

(** [float(n)] for a Python [int]: the nearest binary64, exact whenever
    [|n| <= 2^53]. *)
Definition float_of_Z (n : Z) : float := float_of_frac n 1.

(** The float operand an arithmetic or comparison operator works on. *)
Definition to_float (x : num) : float :=
  match x with
  | PyInt z => float_of_Z z
  | PyFloat f => f
  end.

Definition add (x y : num) : num :=
  match x, y with
  | PyInt a, PyInt b => PyInt (a + b)
  | _, _ => PyFloat (PrimFloat.add (to_float x) (to_float y))
  end.

Definition sub (x y : num) : num :=
  match x, y with
  | PyInt a, PyInt b => PyInt (a - b)
  | _, _ => PyFloat (PrimFloat.sub (to_float x) (to_float y))
  end.

Definition mul (x y : num) : num :=
  match x, y with
  | PyInt a, PyInt b => PyInt (a * b)
  | _, _ => PyFloat (PrimFloat.mul (to_float x) (to_float y))
  end.

(** [x < y], [x <= y], [x > y] *)
Definition lt (x y : num) : bool :=
  match x, y with
  | PyInt a, PyInt b => a <? b
  | _, _ => PrimFloat.ltb (to_float x) (to_float y)
  end.

Definition le (x y : num) : bool :=
  match x, y with
  | PyInt a, PyInt b => a <=? b
  | _, _ => PrimFloat.leb (to_float x) (to_float y)
  end.

Definition gt (x y : num) : bool := lt y x.

(** [x / y] on floats.  Python raises ZeroDivisionError for a zero divisor;
    every division of the embedded code is guarded by a test that its
    divisor is positive, so that path is not modelled. *)
Definition fdiv (x y : float) : float := PrimFloat.div x y.

(** The builtins [min(a, b)] and [max(a, b)]: the first argument is kept
    unless the second is strictly smaller (resp. larger). *)
Definition min (a b : num) : num := if lt b a then b else a.
Definition max (a b : num) : num := if gt b a then b else a.

(** The float accumulation of the builtin [sum].  Up to CPython 3.11 it is
    a plain left fold; from 3.12 on it is Neumaier's compensated sum. *)
Definition fsum_naive (xs : list float) : float :=
  fold_left PrimFloat.add xs PrimFloat.zero.

Definition neumaier_step (acc : float * float) (x : float) : float * float :=
  let '(f_result, c) := acc in
  let t := PrimFloat.add f_result x in
  let c' :=
    if PrimFloat.leb (PrimFloat.abs x) (PrimFloat.abs f_result)
    then PrimFloat.add c (PrimFloat.add (PrimFloat.sub f_result t) x)
    else PrimFloat.add c (PrimFloat.add (PrimFloat.sub x t) f_result) in
  (t, c').

Definition is_finite (x : float) : bool :=
  PrimFloat.ltb (PrimFloat.abs x) PrimFloat.infinity.

Definition fsum_neumaier (xs : list float) : float :=
  let '(f_result, c) := fold_left neumaier_step xs (PrimFloat.zero, PrimFloat.zero) in
  if negb (PrimFloat.eqb c PrimFloat.zero) && is_finite c
  then PrimFloat.add f_result c
  else f_result.

(** [sum(xs)] over a sequence of floats: the [int] 0 it starts from when
    the sequence is empty, the float accumulation [fsum] otherwise. *)
Definition sum (fsum : list float -> float) (xs : list float) : num :=
  match xs with
  | [] => PyInt 0
  | _ :: _ => PyFloat (fsum xs)
  end.

End Py.

(** ** [decimal.Decimal] *)

Module Dec.

(** A finite Decimal: [coeff * 10 ^ dexp]. *)
Record decimal : Type := mk { coeff : Z; dexp : Z }.

Definition prec : Z := 28.

(** Errors raised under the default context's traps. *)
Inductive exn : Type :=
| DivisionByZero
| InvalidOperation
| Overflow.

Inductive result (A : Type) : Type :=
| Ok (a : A)
| Raise (e : exn).
Arguments Ok {A} a.
Arguments Raise {A} e.

Definition bind {A B} (r : result A) (k : A -> result B) : result B :=
  match r with
  | Ok a => k a
  | Raise e => Raise e
  end.

(** [len(str(abs(n)))]: the number of decimal digits, 1 for 0. *)
Fixpoint ndigits_fuel (fuel : nat) (n : Z) : Z :=
  match fuel with
  | O => 1
  | S fuel' => if n <? 10 then 1 else 1 + ndigits_fuel fuel' (n / 10)
  end.

Definition ndigits (n : Z) : Z :=
  ndigits_fuel (S (Z.to_nat (Z.log2 (Z.abs n)))) (Z.abs n).

(** Dropping the last [k] digits of a non-negative coefficient, rounding
    half to even (ROUND_HALF_EVEN, the default context rounding). *)
Definition round_half_even (c k : Z) : Z :=
  let q := c / 10 ^ k in
  let r := c mod 10 ^ k in
  let half := 5 * 10 ^ (k - 1) in
  if (half <? r) || ((r =? half) && Z.odd q) then q + 1 else q.

(** Dropping the last [k] digits of a signed coefficient towards plus
    infinity (ROUND_CEILING). *)
Definition round_ceiling (c k : Z) : Z := - ((- c) / 10 ^ k).

(** [Decimal._fix]: round to the context precision.  The exponent limits
    (Emax, Emin) and the sign of zero are left out. *)
Definition fix_ (c e : Z) : decimal :=
  let n := ndigits c in
  if n <=? prec then mk c e
  else
    let k := n - prec in
    let q := round_half_even (Z.abs c) k in
    if ndigits q <=? prec then mk (Z.sgn c * q) (e + k)
    else mk (Z.sgn c * (q / 10)) (e + k + 1).

Definition of_int (z : Z) : decimal := mk z 0.

Definition neg (a : decimal) : decimal := mk (- coeff a) (dexp a).

(** The two operands brought to the smaller exponent (exact). *)
Definition align (a b : decimal) : Z * Z * Z :=
  let e := Z.min (dexp a) (dexp b) in
  (coeff a * 10 ^ (dexp a - e), coeff b * 10 ^ (dexp b - e), e).

Definition add (a b : decimal) : decimal :=
  let '(ca, cb, e) := align a b in fix_ (ca + cb) e.

Definition sub (a b : decimal) : decimal := add a (neg b).

Definition mul (a b : decimal) : decimal :=
  fix_ (coeff a * coeff b) (dexp a + dexp b).

(** Numeric comparison; exact, whatever the exponents. *)
Definition compare (a b : decimal) : comparison :=
  let '(ca, cb, _) := align a b in Z.compare ca cb.

Definition eqb (a b : decimal) : bool :=
  match compare a b with Eq => true | _ => false end.
Definition ltb (a b : decimal) : bool :=
  match compare a b with Lt => true | _ => false end.
Definition leb (a b : decimal) : bool :=
  match compare a b with Gt => false | _ => true end.

(** The loop of [__truediv__] that brings an exact quotient as close to
    the ideal exponent as its trailing zeros allow. *)
Fixpoint strip_zeros (n : nat) (c e : Z) : Z * Z :=
  match n with
  | O => (c, e)
  | S n' => if c mod 10 =? 0 then strip_zeros n' (c / 10) (e + 1) else (c, e)
  end.

(** [Decimal.__truediv__]. *)
Definition div (a b : decimal) : result decimal :=
  if coeff b =? 0 then
    if coeff a =? 0 then Raise InvalidOperation else Raise DivisionByZero
  else if coeff a =? 0 then Ok (mk 0 (dexp a - dexp b))
  else
    let sign := Z.sgn (coeff a) * Z.sgn (coeff b) in
    let op1 := Z.abs (coeff a) in
    let op2 := Z.abs (coeff b) in
    let shift := ndigits op2 - ndigits op1 + prec + 1 in
    let e := dexp a - dexp b - shift in
    let '(c, r) :=
      if 0 <=? shift then Z.div_eucl (op1 * 10 ^ shift) op2
      else Z.div_eucl op1 (op2 * 10 ^ (- shift)) in
    if r =? 0 then
      let ideal := dexp a - dexp b in
      let '(c', e') := strip_zeros (Z.to_nat (ideal - e)) c e in
      Ok (fix_ (sign * c') e')
    else
      let c' := if c mod 5 =? 0 then c + 1 else c in
      Ok (fix_ (sign * c') e).

(** [math.ceil(d)], through [Decimal.__ceil__]. *)
Definition ceil (a : decimal) : Z :=
  if 0 <=? dexp a then coeff a * 10 ^ dexp a
  else round_ceiling (coeff a) (- dexp a).

(** [round(d, 2)]: [quantize] to the exponent -2 with ROUND_HALF_EVEN;
    InvalidOperation when the result needs more than [prec] digits. *)
Definition round2 (a : decimal) : result decimal :=
  if coeff a =? 0 then Ok (mk 0 (-2))
  else if prec <? dexp a + ndigits (coeff a) - 1 + 2 + 1 then Raise InvalidOperation
  else
    let c :=
      if -2 <=? dexp a then coeff a * 10 ^ (dexp a + 2)
      else Z.sgn (coeff a) * round_half_even (Z.abs (coeff a)) (-2 - dexp a) in
    if prec <? ndigits c then Raise InvalidOperation else Ok (mk c (-2)).

(** The rational number a Decimal denotes. *)
Definition to_Q (a : decimal) : Q :=
  (inject_Z (coeff a) * inject_Z 10 ^ dexp a)%Q.

(** [float(d)]: the binary64 nearest to the decimal. *)
Definition to_float (a : decimal) : float :=
  if 0 <=? dexp a then Py.float_of_Z (coeff a * 10 ^ dexp a)
  else Py.float_of_frac (coeff a) (Z.to_pos (10 ^ (- dexp a))).

End Dec.


(** ** The data model ([loans/models.py]) *)

(** [datetime.date], ordered lexicographically.  [date.today()] and
    [datetime.now()] are one [today] passed to the functions that read
    the clock. *)
Record date : Type := mkdate { year : Z; month : Z; day : Z }.

Definition date_leb (a b : date) : bool :=
  (year a <? year b)
  || ((year a =? year b)
      && ((month a <? month b) || ((month a =? month b) && (day a <=? day b)))).

Record Customer : Type := mkCustomer {
  customer_id : Z;
  age : Z;
  phone_number : Z;
  monthly_salary : Dec.decimal;
  approved_limit : Dec.decimal;
  current_debt : Dec.decimal
}.

Record Loan : Type := mkLoan {
  loan_id : Z;
  customer : Z;                    (* foreign key: the owner's customer_id *)
  loan_amount : Dec.decimal;
  tenure : Z;
  interest_rate : Dec.decimal;
  monthly_repayment : Dec.decimal;
  emis_paid_on_time : Z;
  start_date : date;
  end_date : date
}.

(** The two tables the core reads. *)
Record database : Type := mkdb {
  customers : list Customer;
  all_loans : list Loan
}.

(** [Customer.objects.get(customer_id=cid)]; [None] is [DoesNotExist]. *)
Definition get_customer (db : database) (cid : Z) : option Customer :=
  find (fun c => customer_id c =? cid) (customers db).

(** [customer.loans.all()], the reverse side of the foreign key. *)
Definition loans_of (db : database) (c : Customer) : list Loan :=
  filter (fun l => customer l =? customer_id c) (all_loans db).

(** [customer.loans.filter(end_date__gte=today)] *)
Definition active_loans (db : database) (today : date) (c : Customer)
  : list Loan :=
  filter (fun l => date_leb today (end_date l)) (loans_of db c).

(** The builtin [max] on two [int]s. *)
Definition int_max (a b : Z) : Z := if a <? b then b else a.

(** [Loan.repayments_left] *)
Definition repayments_left (l : Loan) : Z :=
  int_max 0 (tenure l - emis_paid_on_time l).

(** [sum] over [int]s. *)
Definition int_sum (xs : list Z) : Z := fold_left Z.add xs 0.

(** ** [loans/utils.py] *)

Definition float_amounts (f : Loan -> Dec.decimal) (ls : list Loan)
  : list float :=
  map (fun l => Dec.to_float (f l)) ls.

(** The stepped tables of components 2 and 3. *)
Definition loan_count_points (num_loans : Z) : Z :=
  if num_loans <=? 2 then 15
  else if num_loans <=? 5 then 10
  else if num_loans <=? 10 then 5
  else 0.

Definition current_year_points (n : Z) : Z :=
  if n <=? 2 then 15
  else if n <=? 4 then 10
  else if n <=? 6 then 5
  else 0.

Section Engine.

(** The float accumulation of [sum], which depends on the interpreter
    ([Py.fsum_naive] or [Py.fsum_neumaier]). *)
Variable fsum : list float -> float.

(** Components 1 to 4 accumulated into [score], then the final clamp. *)
Definition score_of_history (c : Customer) (today : date) (loans : list Loan)
  : Py.num :=
  let score := Py.PyInt 0 in
  let total_emis := int_sum (map tenure loans) in
  let emis_paid := int_sum (map emis_paid_on_time loans) in
  let score :=
    if 0 <? total_emis then
      let on_time_ratio :=
        Py.fdiv (Py.float_of_Z emis_paid) (Py.float_of_Z total_emis) in
      Py.add score
        (Py.min (Py.PyInt 35) (Py.mul (Py.PyFloat on_time_ratio) (Py.PyInt 35)))
    else score in
  let num_loans := Z.of_nat (List.length loans) in
  let score := Py.add score (Py.PyInt (loan_count_points num_loans)) in
  let current_year := year today in
  let current_year_loans :=
    filter (fun l => year (start_date l) =? current_year) loans in
  let score :=
    Py.add score
      (Py.PyInt (current_year_points (Z.of_nat (List.length current_year_loans)))) in
  let total_loan_volume := Py.sum fsum (float_amounts loan_amount loans) in
  let score :=
    if Dec.ltb (Dec.of_int 0) (approved_limit c) then
      let volume_ratio :=
        Py.min (Py.PyInt 1)
          (Py.PyFloat
             (Py.fdiv (Py.to_float total_loan_volume)
                (Dec.to_float (approved_limit c)))) in
      Py.add score
        (Py.max (Py.PyInt 0)
           (Py.sub (Py.PyInt 35) (Py.mul volume_ratio (Py.PyInt 35))))
    else score in
  Py.min (Py.PyInt 100) (Py.max (Py.PyInt 0) score).

Definition calculate_credit_score (db : database) (today : date) (cid : Z)
  : Py.num :=
  match get_customer db cid with
  | None => Py.PyInt 0
  | Some c =>
      let current_loans_sum :=
        Py.sum fsum (float_amounts loan_amount (active_loans db today c)) in
      if Py.gt current_loans_sum (Py.PyFloat (Dec.to_float (approved_limit c)))
      then Py.PyInt 0
      else
        let loans := loans_of db c in
        match loans with
        | [] => Py.PyInt 50
        | _ :: _ => score_of_history c today loans
        end
  end.

(** The float literals 8.0, 12.0 and 16.0, as [Decimal(str(x))] reads them
    back in [calculate_monthly_installment]. *)
Definition rate_8 : Dec.decimal := Dec.mk 80 (-1).
Definition rate_12 : Dec.decimal := Dec.mk 120 (-1).
Definition rate_16 : Dec.decimal := Dec.mk 160 (-1).

(** The builtin [max(requested_rate, floor)] on a Decimal and a float:
    the floor is returned only when it is strictly larger. *)
Definition rate_max (requested_rate floor : Dec.decimal) : Dec.decimal :=
  if Dec.ltb requested_rate floor then floor else requested_rate.

Definition get_corrected_interest_rate (credit_score : Py.num)
    (requested_rate : Dec.decimal) : Dec.decimal :=
  if Py.gt credit_score (Py.PyInt 50) then rate_max requested_rate rate_8
  else if Py.gt credit_score (Py.PyInt 30) then rate_max requested_rate rate_12
  else if Py.gt credit_score (Py.PyInt 10) then rate_max requested_rate rate_16
  else requested_rate.

(** The outcome tuple of [check_loan_eligibility]. *)
Record decision : Type := mkdecision {
  approved : bool;
  corrected_interest_rate : Dec.decimal;
  monthly_installment : Dec.decimal;
  message : string
}.

(** [Decimal.__pow__] under the default context.  The C implementation of
    the decimal module documents its result as only "almost always
    correctly rounded", so the operator is a parameter of the engine;
    [Dec_power] below is the correctly rounded instance. *)
Variable pow : Dec.decimal -> Dec.decimal -> Dec.result Dec.decimal.

Definition calculate_monthly_installment
    (principal annual_rate : Dec.decimal) (tenure_months : Z)
  : Dec.result Dec.decimal :=
  let tenure := Dec.of_int tenure_months in
  if Dec.eqb annual_rate (Dec.of_int 0) then Dec.div principal tenure
  else
    Dec.bind (Dec.div annual_rate (Dec.of_int 1200)) (fun monthly_rate =>
    Dec.bind (pow (Dec.add (Dec.of_int 1) monthly_rate) tenure) (fun p1 =>
    let numerator := Dec.mul (Dec.mul principal monthly_rate) p1 in
    Dec.bind (pow (Dec.add (Dec.of_int 1) monthly_rate) tenure) (fun p2 =>
    let denominator := Dec.sub p2 (Dec.of_int 1) in
    if Dec.eqb denominator (Dec.of_int 0) then Dec.div principal tenure
    else
      Dec.bind (Dec.div numerator denominator) (fun emi => Dec.round2 emi)))).

(** The test of the EMI rule:
    [current_emis + float(monthly_installment) > float(monthly_salary) * 0.5] *)
Definition emis_exceed_half_salary (db : database) (today : date)
    (c : Customer) (installment : Dec.decimal) : bool :=
  let current_emis :=
    Py.sum fsum (float_amounts monthly_repayment (active_loans db today c)) in
  let total_emis := Py.add current_emis (Py.PyFloat (Dec.to_float installment)) in
  Py.gt total_emis
    (Py.PyFloat (PrimFloat.mul (Dec.to_float (monthly_salary c)) 0.5%float)).

(** The third component of the "Customer not found" tuple is the [int] 0,
    held here as the Decimal 0. *)
Definition check_loan_eligibility (db : database) (today : date) (cid : Z)
    (amount rate : Dec.decimal) (tenure_months : Z)
  : Dec.result decision :=
  match get_customer db cid with
  | None => Dec.Ok (mkdecision false rate (Dec.of_int 0) "Customer not found")
  | Some c =>
      let credit_score := calculate_credit_score db today cid in
      let corrected_rate := get_corrected_interest_rate credit_score rate in
      Dec.bind (calculate_monthly_installment amount corrected_rate tenure_months)
        (fun installment =>
           if Py.le credit_score (Py.PyInt 10) then
             Dec.Ok (mkdecision false corrected_rate installment
                       "Credit score too low")
           else if emis_exceed_half_salary db today c installment then
             Dec.Ok (mkdecision false corrected_rate installment
                       "EMIs exceed 50% of monthly salary")
           else if Dec.ltb (approved_limit c) amount then
             Dec.Ok (mkdecision false corrected_rate installment
                       "Loan amount exceeds approved limit")
           else
             Dec.Ok (mkdecision true corrected_rate installment "Loan approved"))
  end.

End Engine.

(** The correctly rounded power for an integral, non-negative exponent. *)
Definition Dec_power (a n : Dec.decimal) : Dec.result Dec.decimal :=
  if (0 <=? Dec.dexp n) && (0 <=? Dec.coeff n) then
    let k := Dec.coeff n * 10 ^ Dec.dexp n in
    Dec.Ok (Dec.fix_ (Dec.coeff a ^ k) (Dec.dexp a * k))
  else Dec.Raise Dec.InvalidOperation.

(** ** Registration ([CustomerRegistrationSerializer.create]) *)

(** [math.ceil(36 * monthly_income / 100000) * 100000] *)
Definition registration_limit (monthly_income : Dec.decimal) : Dec.result Z :=
  let approved_limit := Dec.mul (Dec.of_int 36) monthly_income in
  Dec.bind (Dec.div approved_limit (Dec.of_int 100000)) (fun q =>
  Dec.Ok (Dec.ceil q * 100000)).

Record registration : Type := mkregistration {
  reg_age : Z;
  reg_monthly_income : Dec.decimal;
  reg_phone_number : Z
}.

(** [create]: the new row, with the primary key the database assigns. *)
Definition create (new_id : Z) (validated_data : registration)
  : Dec.result Customer :=
  Dec.bind (registration_limit (reg_monthly_income validated_data)) (fun limit =>
  Dec.Ok (mkCustomer new_id (reg_age validated_data)
            (reg_phone_number validated_data)
            (reg_monthly_income validated_data)
            (Dec.of_int limit) (Dec.of_int 0))).

(** ** Reference data and statements used below *)

(** A specification float that is not below zero (NaN included: every
    comparison with it is false). *)
Definition sf_nonneg (x : spec_float) : bool :=
  match x with
  | S754_infinity true | S754_finite true _ _ => false
  | _ => true
  end.

(** The business rejections of the decision engine. *)
Definition business_rejections : list string :=
  ["Credit score too low"%string;
   "EMIs exceed 50% of monthly salary"%string;
   "Loan amount exceeds approved limit"%string].

(** The claim that the outcome for a missing customer can be told apart
    from the score of every existing customer. *)
Definition missing_customer_distinct (fsum : list float -> float) : Prop :=
  forall db today cid,
    get_customer db cid = None ->
    forall db' today' cid',
      get_customer db' cid' <> None ->
      calculate_credit_score fsum db today cid
      <> calculate_credit_score fsum db' today' cid'.

(** An existing customer over the approved limit: limit 100000.00, one
    active loan of 200000.00. *)
Definition overexposed_customer : Customer :=
  mkCustomer 1 30 1234567890 (Dec.mk 5000000 (-2)) (Dec.mk 10000000 (-2))
    (Dec.of_int 0).

Definition overexposed_db : database :=
  mkdb [overexposed_customer]
    [mkLoan 1001 1 (Dec.mk 20000000 (-2)) 12 (Dec.mk 1000 (-2))
       (Dec.mk 1758318 (-2)) 0 (mkdate 2024 1 1) (mkdate 2099 1 1)].

(** A customer at the limit of the overexposure gate: limit
    8796093022208.43, twelve active loans of 8796093022208.00 and eleven
    times 0.04, which sum to 8796093022208.44. *)
Definition near_limit_customer : Customer :=
  mkCustomer 1 30 1234567890 (Dec.mk 5000000 (-2))
    (Dec.mk 879609302220843 (-2)) (Dec.of_int 0).

Definition small_loan (i : Z) : Loan :=
  mkLoan (2001 + i) 1 (Dec.mk 4 (-2)) 12 (Dec.mk 1200 (-2)) (Dec.mk 1 (-2)) 0
    (mkdate 2024 1 1) (mkdate 2099 1 1).

Definition near_limit_db : database :=
  mkdb [near_limit_customer]
    (mkLoan 2000 1 (Dec.mk 879609302220800 (-2)) 12 (Dec.mk 1200 (-2))
       (Dec.mk 100 (-2)) 0 (mkdate 2024 1 1) (mkdate 2099 1 1)
     :: map small_loan [0; 1; 2; 3; 4; 5; 6; 7; 8; 9; 10]).

(** A customer at the limit of the EMI rule: salary 50537.88, limit
    1800000.00, one active loan repaid at 16384.06 a month. *)
Definition half_salary_customer : Customer :=
  mkCustomer 1 30 1234567890 (Dec.mk 5053788 (-2)) (Dec.mk 180000000 (-2))
    (Dec.of_int 0).

Definition half_salary_db : database :=
  mkdb [half_salary_customer]
    [mkLoan 1001 1 (Dec.mk 50000000 (-2)) 36 (Dec.mk 1200 (-2))
       (Dec.mk 1638406 (-2)) 12 (mkdate 2024 1 1) (mkdate 2027 1 1)].

(** A new customer: income 50000.00, limit 1800000.00, no loan. *)
Definition new_customer : Customer :=
  mkCustomer 1 30 1234567890 (Dec.mk 5000000 (-2)) (Dec.mk 180000000 (-2))
    (Dec.of_int 0).

Definition new_customer_db : database := mkdb [new_customer] [].

Definition a_day : date := mkdate 2025 6 1.

(** ** The rest of [loans/models.py] and [loans/serializers.py] *)

(** [Loan.is_active]: today is on or before the end date. *)
Definition is_active (today : date) (l : Loan) : bool :=
  date_leb today (end_date l).

(** What a validation hook hands back: the value, or the message of the
    [ValidationError] it raises. *)
Inductive validated (A : Type) : Type :=
| Accepted (a : A)
| Rejected (msg : string).
Arguments Accepted {A} a.
Arguments Rejected {A} msg.

(** [len(str(value))] for an [int]: the digits, and the minus sign. *)
Definition str_len (value : Z) : Z :=
  if value <? 0 then 1 + Dec.ndigits value else Dec.ndigits value.

(** [CustomerRegistrationSerializer.validate_phone_number] *)
Definition validate_phone_number (db : database) (value : Z) : validated Z :=
  if existsb (fun c => phone_number c =? value) (customers db) then
    Rejected "Customer with this phone number already exists."
  else if str_len value <? 10 then
    Rejected "Phone number must be at least 10 digits."
  else Accepted value.

(** ** The store behind the views *)

(** The range of a [BigIntegerField] column. *)
Definition fits_bigint (v : Z) : bool :=
  (- 2 ^ 63 <=? v) && (v <? 2 ^ 63).

(** [Customer.objects.create]: the row is added unless the primary key or
    the unique phone number is taken (IntegrityError), or the phone number
    does not fit its column; [None] is the exception.  The other column
    checks of the table (the range of [PositiveIntegerField], the digit
    limits of [DecimalField]) and the rounding of Decimal values to the
    scale of their column are left to the database and not modelled: a
    row holds the values handed over, and a result other than [None]
    says only that none of the refusals above applies. *)
Definition insert_customer (db : database) (c : Customer) : option database :=
  if existsb (fun c' => customer_id c' =? customer_id c) (customers db) then None
  else if existsb (fun c' => phone_number c' =? phone_number c) (customers db)
  then None
  else if negb (fits_bigint (phone_number c)) then None
  else Some (mkdb (customers db ++ [c]) (all_loans db)).

(** [Loan.objects.create]: the row is added unless the primary key is
    taken or the foreign key names no customer (IntegrityError, [None]).
    As for customers, the other column checks and the rounding to the
    column scale are not modelled: a row holds the values handed over. *)
Definition insert_loan (db : database) (l : Loan) : option database :=
  if existsb (fun l' => loan_id l' =? loan_id l) (all_loans db) then None
  else if negb (existsb (fun c => customer_id c =? customer l) (customers db))
  then None
  else Some (mkdb (customers db) (all_loans db ++ [l])).

(** [customer.save()]: the row of that primary key takes the fields of the
    instance. *)
Definition save_customer (db : database) (c : Customer) : database :=
  mkdb (map (fun c' => if customer_id c' =? customer_id c then c else c')
          (customers db))
       (all_loans db).

(** [Loan.objects.get(loan_id=...)] *)
Definition get_loan (db : database) (lid : Z) : option Loan :=
  find (fun l => loan_id l =? lid) (all_loans db).

(** [calendar.monthrange(year, month)[1]] *)
Definition is_leap (y : Z) : bool :=
  (y mod 4 =? 0) && (negb (y mod 100 =? 0) || (y mod 400 =? 0)).

Definition days_in_month (y m : Z) : Z :=
  if m =? 2 then (if is_leap y then 29 else 28)
  else if (m =? 4) || (m =? 6) || (m =? 9) || (m =? 11) then 30
  else 31.

(** [start_date + relativedelta(months=n)] for [n >= 0]: the month moves
    on, the day is clipped to the length of the month reached; [None] is
    the ValueError of a year beyond 9999. *)
Definition add_months (d : date) (n : Z) : option date :=
  let t := month d - 1 + n in
  let y := year d + t / 12 in
  let m := t mod 12 + 1 in
  if 9999 <? y then None
  else Some (mkdate y m (Z.min (day d) (days_in_month y m))).

(** The value [fix_sequences] sets a sequence to:
    [COALESCE(MAX(id), 0) + 1]. *)
Definition max_id (ids : list Z) : option Z :=
  match ids with
  | [] => None
  | i :: rest => Some (fold_left Z.max rest i)
  end.

Definition fixed_sequence_value (ids : list Z) : Z :=
  match max_id ids with
  | Some m => m + 1
  | None => 0 + 1
  end.

(** ** [loans/tasks.py]: [calculate_current_debt] *)

(** [loan.loan_amount - (loan.emis_paid_on_time * loan.monthly_repayment)] *)
Definition outstanding (l : Loan) : Dec.decimal :=
  Dec.sub (loan_amount l)
    (Dec.mul (Dec.of_int (emis_paid_on_time l)) (monthly_repayment l)).

(** [sum] over Decimals, from the [int] 0. *)
Definition dec_sum (xs : list Dec.decimal) : Dec.decimal :=
  fold_left Dec.add xs (Dec.of_int 0).

(** [max(0, d)]: [d] when it is above 0, the [int] 0 otherwise. *)
Definition dec_max0 (d : Dec.decimal) : Dec.decimal :=
  if Dec.ltb (Dec.of_int 0) d then d else Dec.of_int 0.

Definition recomputed_debt (db : database) (today : date) (c : Customer)
  : Dec.decimal :=
  dec_max0 (dec_sum (map outstanding (active_loans db today c))).

Definition with_debt (c : Customer) (d : Dec.decimal) : Customer :=
  mkCustomer (customer_id c) (age c) (phone_number c) (monthly_salary c)
    (approved_limit c) d.

(** One turn of the loop: the debt of [c] is recomputed from the store as
    it is and the customer saved. *)
Definition debt_step (today : date) (acc : database) (c : Customer)
  : database :=
  save_customer acc (with_debt c (recomputed_debt acc today c)).

(** The loop over [Customer.objects.all()], one [save()] per customer. *)
Definition calculate_current_debt (db : database) (today : date) : database :=
  fold_left (debt_step today) (customers db) db.

(** The store with the debt of every customer replaced by [f]. *)
Definition with_debts (f : Customer -> Dec.decimal) (db : database)
  : database :=
  mkdb (map (fun c => with_debt c (f c)) (customers db)) (all_loans db).

(** ** [loans/views.py] *)

(** One entry of [CustomerLoanListSerializer]. *)
Record loan_item : Type := mkitem {
  item_loan_id : Z;
  item_loan_amount : Dec.decimal;
  item_interest_rate : Dec.decimal;
  item_monthly_installment : Dec.decimal;
  item_repayments_left : Z
}.

Definition loan_item_of (l : Loan) : loan_item :=
  mkitem (loan_id l) (loan_amount l) (interest_rate l) (monthly_repayment l)
    (repayments_left l).

(** What a view hands to its response serializer, or its error body. *)
Inductive body : Type :=
| ErrorBody (error : string)
| ValidationErrors
| RegistrationBody (c : Customer)
| EligibilityBody (cid : Z) (approval : bool)
    (requested corrected : Dec.decimal) (tenure_months : Z)
    (installment : Dec.decimal)
| LoanCreateBody (new_loan : option Z) (cid : Z) (loan_approved : bool)
    (msg : string) (installment : Dec.decimal)
| LoanDetailBody (l : Loan) (owner : Customer)
| LoanListBody (items : list loan_item).

Record response : Type := mkresponse { status_code : Z; data : body }.

(** The validated data of [LoanEligibilitySerializer] and
    [LoanCreateSerializer]. *)
Record loan_request : Type := mkrequest {
  req_customer_id : Z;
  req_loan_amount : Dec.decimal;
  req_interest_rate : Dec.decimal;
  req_tenure : Z
}.

Section Views.

Variable fsum : list float -> float.
Variable pow : Dec.decimal -> Dec.decimal -> Dec.result Dec.decimal.

(** Whether the response serializer renders the data ([serializer.data])
    without raising; the rendering is the framework's. *)
Variable renders : body -> bool.

(** [Response(serializer.data, status)] inside the [try] of a view: a
    failure of the rendering is answered by the [except Exception] arm. *)
Definition respond (status : Z) (b : body) (failure : string) : response :=
  if renders b then mkresponse status b else mkresponse 500 (ErrorBody failure).

(** [register_customer].  [fields] is the outcome of the field validation
    of the request serializer ([None]: some field is invalid); the phone
    hook and [create] follow.  [new_id] is the key the sequence issues. *)
Definition register_customer (db : database) (new_id : Z)
    (fields : option registration) : response * database :=
  match fields with
  | None => (mkresponse 400 ValidationErrors, db)
  | Some validated_data =>
      match validate_phone_number db (reg_phone_number validated_data) with
      | Rejected _ => (mkresponse 400 ValidationErrors, db)
      | Accepted _ =>
          match create new_id validated_data with
          | Dec.Raise _ =>
              (mkresponse 500 (ErrorBody "Failed to create customer"), db)
          | Dec.Ok cust =>
              match insert_customer db cust with
              | None =>
                  (mkresponse 500 (ErrorBody "Failed to create customer"), db)
              | Some db' =>
                  (respond 201 (RegistrationBody cust)
                     "Failed to create customer", db')
              end
          end
      end
  end.

(** [check_eligibility] *)
Definition check_eligibility (db : database) (today : date)
    (request : option loan_request) : response :=
  match request with
  | None => mkresponse 400 ValidationErrors
  | Some r =>
      match check_loan_eligibility fsum pow db today (req_customer_id r)
              (req_loan_amount r) (req_interest_rate r) (req_tenure r) with
      | Dec.Raise _ => mkresponse 500 (ErrorBody "Failed to check eligibility")
      | Dec.Ok d =>
          if negb (approved d) && String.eqb (message d) "Customer not found"
          then mkresponse 404 (ErrorBody "Customer not found")
          else
            respond 200
              (EligibilityBody (req_customer_id r) (approved d)
                 (req_interest_rate r) (corrected_interest_rate d)
                 (req_tenure r) (monthly_installment d))
              "Failed to check eligibility"
      end
  end.

(** [create_loan].  [get_object_or_404] raises inside the [try], so a
    missing customer is answered by the [except Exception] arm.
    [new_loan_id] is the key the sequence issues. *)
Definition create_loan (db : database) (today : date) (new_loan_id : Z)
    (request : option loan_request) : response * database :=
  let failed := mkresponse 500 (ErrorBody "Failed to process loan") in
  match request with
  | None => (mkresponse 400 ValidationErrors, db)
  | Some r =>
      let cid := req_customer_id r in
      match get_customer db cid with
      | None => (failed, db)
      | Some c =>
          match check_loan_eligibility fsum pow db today cid
                  (req_loan_amount r) (req_interest_rate r) (req_tenure r) with
          | Dec.Raise _ => (failed, db)
          | Dec.Ok d =>
              if approved d then
                match add_months today (req_tenure r) with
                | None => (failed, db)
                | Some end_date =>
                    match calculate_monthly_installment pow (req_loan_amount r)
                            (corrected_interest_rate d) (req_tenure r) with
                    | Dec.Raise _ => (failed, db)
                    | Dec.Ok final_monthly_installment =>
                        let loan :=
                          mkLoan new_loan_id cid (req_loan_amount r)
                            (req_tenure r) (corrected_interest_rate d)
                            final_monthly_installment 0 today end_date in
                        match insert_loan db loan with
                        | None => (failed, db)
                        | Some db1 =>
                            let db2 :=
                              save_customer db1
                                (with_debt c
                                   (Dec.add (current_debt c) (req_loan_amount r))) in
                            (respond 200
                               (LoanCreateBody (Some new_loan_id) cid true
                                  "Loan approved successfully"
                                  final_monthly_installment)
                               "Failed to process loan", db2)
                        end
                    end
                end
              else
                (respond 200
                   (LoanCreateBody None cid false (message d)
                      (monthly_installment d))
                   "Failed to process loan", db)
          end
      end
  end.

(** [view_loan].  The nested serializer reads [loan.customer]; a loan
    without its customer row raises there, inside the [try]. *)
Definition view_loan (db : database) (lid : Z) : response :=
  match get_loan db lid with
  | None => mkresponse 404 (ErrorBody "Loan not found")
  | Some l =>
      match get_customer db (customer l) with
      | None => mkresponse 500 (ErrorBody "Failed to fetch loan details")
      | Some owner =>
          respond 200 (LoanDetailBody l owner) "Failed to fetch loan details"
      end
  end.

(** [view_customer_loans] *)
Definition view_customer_loans (db : database) (today : date) (cid : Z)
  : response :=
  match get_customer db cid with
  | None => mkresponse 404 (ErrorBody "Customer not found")
  | Some c =>
      respond 200 (LoanListBody (map loan_item_of (active_loans db today c)))
        "Failed to fetch customer loans"
  end.

End Views.

(** A renderer that never fails. *)
Definition renders_all (b : body) : bool := true.

(** Primary keys are unique and every loan belongs to a customer. *)
Definition db_consistent (db : database) : Prop :=
  NoDup (map customer_id (customers db))
  /\ NoDup (map loan_id (all_loans db))
  /\ (forall l, In l (all_loans db) ->
        exists c, In c (customers db) /\ customer_id c = customer l).

(** ** Reference data for the views *)

(** The first loan of the new customer: 100000.00 at 10.00% over 12
    months, asked on [a_day], approved at 12% with an installment of
    8884.88. *)
Definition first_request : loan_request :=
  mkrequest 1 (Dec.mk 10000000 (-2)) (Dec.mk 1000 (-2)) 12.

Definition first_loan : Loan :=
  mkLoan 1 1 (Dec.mk 10000000 (-2)) 12 rate_12 (Dec.mk 888488 (-2)) 0
    a_day (mkdate 2026 6 1).

Definition store_after_first_loan : database :=
  mkdb [with_debt new_customer (Dec.mk 10000000 (-2))] [first_loan].

Definition first_loan_answer : response :=
  mkresponse 200
    (LoanCreateBody (Some 1) 1 true "Loan approved successfully"
       (Dec.mk 888488 (-2))).

(** The registration that opens an empty store. *)
Definition first_registration : registration :=
  mkregistration 30 (Dec.mk 5000000 (-2)) 1234567890.

Definition first_customer : Customer :=
  mkCustomer 1 30 1234567890 (Dec.mk 5000000 (-2)) (Dec.of_int 1800000)
    (Dec.of_int 0).

Definition empty_db : database := mkdb [] [].

(** * Properties *)

(** ** Binary64 comparisons *)

Module FloatFacts.

Lemma sf_nonneg_not_lt_zero (x : spec_float) (s : bool) :
  sf_nonneg x = true -> SFltb x (S754_zero s) = false.
Proof.
  destruct x as [[] | [] | | [] m e], s; simpl; intros H;
    reflexivity || discriminate.
Qed.

Lemma binary_round_aux_nonneg (m e : Z) (l : location) :
  sf_nonneg (binary_round_aux FloatOps.prec emax false m e l) = true.
Proof.
  unfold binary_round_aux.
  destruct (shr_fexp _ _ m e l) as [mrs' e'].
  destruct (shr_fexp _ _ _ e' loc_Exact) as [mrs'' e''].
  destruct (shr_m mrs''); simpl; auto.
  match goal with |- context [if ?b then _ else _] => destruct b end;
    reflexivity.
Qed.

Lemma binary_round_nonneg (m : positive) (e : Z) :
  sf_nonneg (binary_round FloatOps.prec emax false m e) = true.
Proof.
  unfold binary_round.
  destruct (shl_align _ _ _) as [mz ez].
  apply binary_round_aux_nonneg.
Qed.

Lemma SFdiv_nonneg (p d : positive) :
  sf_nonneg
    (SFdiv FloatOps.prec emax (S754_finite false p 0) (S754_finite false d 0))
  = true.
Proof.
  unfold SFdiv.
  destruct (SFdiv_core_binary _ _ _ _ _ _) as [[mz ez] lz].
  apply binary_round_aux_nonneg.
Qed.

Lemma SFldexp_nonneg (x : spec_float) (e : Z) :
  sf_nonneg x = true -> sf_nonneg (SFldexp FloatOps.prec emax x e) = true.
Proof.
  destruct x as [ | | | [] m ex]; simpl; auto; try discriminate.
  intros _. apply binary_round_nonneg.
Qed.

Lemma of_uint63_nonneg (n : int) :
  sf_nonneg (Prim2SF (PrimFloat.of_uint63 n)) = true.
Proof.
  rewrite of_uint63_spec. unfold binary_normalize.
  pose proof (Uint63.to_Z_bounded n) as Hn.
  destruct (Uint63.to_Z n); try reflexivity.
  - apply binary_round_nonneg.
  - lia.
Qed.

Lemma SF2Prim_nonneg (x : spec_float) :
  sf_nonneg x = true -> sf_nonneg (Prim2SF (SF2Prim x)) = true.
Proof.
  destruct x as [[] | [] | | [] m e]; simpl; intros H;
    try discriminate; try (vm_compute; reflexivity).
  rewrite FloatLemmas.Z_ldexp_spec.
  apply SFldexp_nonneg, of_uint63_nonneg.
Qed.

(** [x < y] entails [x <= y], and excludes [y < x]. *)
Lemma ltb_leb (x y : float) : PrimFloat.ltb x y = true -> PrimFloat.leb x y = true.
Proof.
  rewrite FloatAxioms.ltb_spec, FloatAxioms.leb_spec. unfold SFltb, SFleb.
  destruct (SFcompare _ _) as [[] | ]; congruence.
Qed.

(** No conversion of a non-negative fraction is below zero. *)
Lemma float_of_frac_not_neg (n : Z) (d : positive) :
  0 <= n -> PrimFloat.ltb (Py.float_of_frac n d) PrimFloat.zero = false.
Proof.
  intros Hn. rewrite FloatAxioms.ltb_spec.
  change (Prim2SF PrimFloat.zero) with (S754_zero false).
  apply sf_nonneg_not_lt_zero. unfold Py.float_of_frac.
  apply SF2Prim_nonneg.
  destruct n as [ | p | p]; try reflexivity.
  - apply SFdiv_nonneg.
  - lia.
Qed.

Lemma to_float_not_neg (a : Dec.decimal) :
  0 <= Dec.coeff a -> PrimFloat.ltb (Dec.to_float a) PrimFloat.zero = false.
Proof.
  intros Ha. unfold Dec.to_float, Py.float_of_Z.
  destruct (0 <=? Dec.dexp a) eqn:He.
  - apply float_of_frac_not_neg. apply Z.leb_le in He.
    apply Z.mul_nonneg_nonneg; [assumption | apply Z.pow_nonneg; lia].
  - apply float_of_frac_not_neg. assumption.
Qed.

(** [SFcompare] is antisymmetric and transitive. *)
Lemma SFcompare_swap (x y : spec_float) :
  SFcompare y x = option_map CompOpp (SFcompare x y).
Proof.
  destruct x as [[] | [] | | [] mx ex], y as [[] | [] | | [] my ey];
    try reflexivity; simpl;
    fold (Pos.compare mx my); fold (Pos.compare my mx);
    rewrite (Z.compare_antisym ex ey), (Pos.compare_antisym mx my);
    destruct (ex ?= ey); simpl; try reflexivity;
    destruct (mx ?= my)%positive; reflexivity.
Qed.

Lemma SFltb_leb_trans (x y z : spec_float) :
  SFltb x y = true -> SFleb y z = true -> SFltb x z = true.
Proof.
  unfold SFltb, SFleb.
  destruct x as [[] | [] | | [] mx ex], y as [[] | [] | | [] my ey],
           z as [[] | [] | | [] mz ez];
    simpl; try congruence;
    fold (Pos.compare mx my); fold (Pos.compare my mz); fold (Pos.compare mx mz);
    destruct (Z.compare_spec ex ey); try congruence;
    destruct (Z.compare_spec ey ez); try congruence;
    destruct (Z.compare_spec ex ez); try lia; try congruence;
    destruct (Pos.compare_spec mx my); simpl; try congruence;
    destruct (Pos.compare_spec my mz); simpl; try congruence;
    destruct (Pos.compare_spec mx mz); simpl; try lia; try congruence.
Qed.

Lemma SFleb_not_ltb (x y : spec_float) :
  SFleb x y = true -> SFltb y x = false.
Proof.
  unfold SFltb, SFleb. rewrite (SFcompare_swap x y).
  destruct (SFcompare x y) as [[] | ]; simpl; congruence.
Qed.

End FloatFacts.


(** ** Decimal arithmetic *)

Module DecFacts.

Lemma ndigits_fuel_spec (fuel : nat) : forall n,
  0 < n -> n < 10 ^ Z.of_nat fuel ->
  10 ^ (Dec.ndigits_fuel fuel n - 1) <= n < 10 ^ Dec.ndigits_fuel fuel n.
Proof.
  induction fuel as [ | fuel IH]; intros n Hpos Hlt.
  - simpl in Hlt. lia.
  - cbn [Dec.ndigits_fuel].
    destruct (n <? 10) eqn:E.
    + apply Z.ltb_lt in E. simpl. lia.
    + apply Z.ltb_ge in E.
      assert (Hq : 0 < n / 10) by (apply Z.div_str_pos; lia).
      assert (Hlt' : n / 10 < 10 ^ Z.of_nat fuel).
      { apply Z.div_lt_upper_bound; [lia | ].
        rewrite Nat2Z.inj_succ, Z.pow_succ_r in Hlt by lia. lia. }
      specialize (IH (n / 10) Hq Hlt').
      set (d := Dec.ndigits_fuel fuel (n / 10)) in *.
      assert (Hd : 1 <= d).
      { destruct (Z_lt_le_dec d 1) as [Hd | Hd]; [ | exact Hd].
        exfalso. rewrite (Z.pow_neg_r 10 (d - 1)) in IH by lia.
        assert (10 ^ d <= 10 ^ 0) by (apply Z.pow_le_mono_r; lia).
        simpl in H. lia. }
      replace (1 + d - 1) with (Z.succ (d - 1)) by lia.
      replace (1 + d) with (Z.succ d) by lia.
      rewrite !Z.pow_succ_r by lia.
      pose proof (Z.div_mod n 10 ltac:(lia)) as Hdm.
      pose proof (Z.mod_pos_bound n 10 ltac:(lia)) as Hm.
      lia.
Qed.

Lemma ndigits_spec (n : Z) :
  0 < n -> 10 ^ (Dec.ndigits n - 1) <= n < 10 ^ Dec.ndigits n.
Proof.
  intros Hpos. unfold Dec.ndigits. rewrite Z.abs_eq by lia.
  apply ndigits_fuel_spec; [assumption | ].
  pose proof (Z.log2_spec n Hpos) as [_ Hl].
  pose proof (Z.log2_nonneg n) as Hnn.
  rewrite Nat2Z.inj_succ, Z2Nat.id by assumption.
  eapply Z.lt_le_trans; [exact Hl | ].
  apply Z.pow_le_mono_l. lia.
Qed.

Lemma ndigits_upper (n k : Z) : 0 < n -> n < 10 ^ k -> Dec.ndigits n <= k.
Proof.
  intros Hpos Hlt. pose proof (ndigits_spec n Hpos) as [Hlo _].
  destruct (Z_lt_le_dec k (Dec.ndigits n)) as [H | H]; [ | lia].
  exfalso.
  assert (10 ^ k <= 10 ^ (Dec.ndigits n - 1)).
  { destruct (Z_lt_le_dec k 0).
    - rewrite Z.pow_neg_r in Hlt by lia. lia.
    - apply Z.pow_le_mono_r; lia. }
  lia.
Qed.

Lemma ndigits_lower (n : Z) : 0 < n -> 1 <= Dec.ndigits n.
Proof.
  intros Hpos. pose proof (ndigits_spec n Hpos) as [_ Hhi].
  destruct (Z_lt_le_dec (Dec.ndigits n) 1) as [H | H]; [ | lia].
  exfalso.
  assert (10 ^ Dec.ndigits n <= 10 ^ 0).
  { destruct (Z_lt_le_dec (Dec.ndigits n) 0).
    - rewrite Z.pow_neg_r by lia. simpl. lia.
    - apply Z.pow_le_mono_r; lia. }
  simpl in H0. lia.
Qed.

Lemma fix_small (c e : Z) : 0 <= c < 10 ^ 28 -> Dec.fix_ c e = Dec.mk c e.
Proof.
  intros Hc. unfold Dec.fix_.
  destruct (Z.eq_dec c 0) as [-> | Hne]; [reflexivity | ].
  assert (Hle : Dec.ndigits c <= Dec.prec).
  { apply ndigits_upper; [lia | ]. unfold Dec.prec. lia. }
  apply Z.leb_le in Hle. rewrite Hle. reflexivity.
Qed.

Lemma strip_zeros_spec (n : nat) : forall c e c' e',
  0 < c ->
  Dec.strip_zeros n c e = (c', e') ->
  exists j, 0 <= j <= Z.of_nat n /\ e' = e + j /\ c = c' * 10 ^ j /\ 0 < c'
            /\ (j < Z.of_nat n -> c' mod 10 <> 0).
Proof.
  induction n as [ | n IH]; intros c e c' e' Hpos H.
  - simpl in H. injection H as <- <-. exists 0. repeat split; try lia.
  - cbn [Dec.strip_zeros] in H.
    destruct (c mod 10 =? 0) eqn:E.
    + apply Z.eqb_eq in E.
      pose proof (Z.div_mod c 10 ltac:(lia)) as Hdm.
      assert (Hq : 0 < c / 10) by lia.
      destruct (IH _ _ _ _ Hq H) as (j & Hj & He & Hc & Hc' & Hmod).
      exists (j + 1). rewrite Nat2Z.inj_succ.
      split; [lia | ]. split; [lia | ]. split; [ | split; [lia | ]].
      * rewrite Z.pow_add_r by lia. change (10 ^ 1) with 10. lia.
      * intros Hlt. apply Hmod. lia.
    + apply Z.eqb_neq in E. injection H as <- <-.
      exists 0. rewrite Nat2Z.inj_succ. repeat split; try lia.
Qed.


(** Division by 100000 is exact on a coefficient within the precision. *)
Lemma div_100000 (A e : Z) :
  0 < A < 10 ^ 28 ->
  exists c' t,
    Dec.div (Dec.mk A e) (Dec.of_int 100000) = Dec.Ok (Dec.mk c' (e - 5 + t))
    /\ 0 <= t <= 5 /\ c' * 10 ^ t = A.
Proof.
  intros HA. unfold Dec.div. cbn [Dec.coeff Dec.dexp Dec.of_int].
  change (100000 =? 0) with false. cbv iota.
  destruct (A =? 0) eqn:EA; [apply Z.eqb_eq in EA; lia | ].
  rewrite (Z.abs_eq A) by lia. change (Z.abs 100000) with 100000.
  change (Dec.ndigits 100000) with 6.
  rewrite Z.sgn_pos by lia. change (Z.sgn 100000) with 1.
  pose proof (ndigits_lower A ltac:(lia)) as Hlo.
  pose proof (ndigits_upper A 28 ltac:(lia) ltac:(lia)) as Hhi.
  unfold Dec.prec. cbv zeta.
  set (shift := 6 - Dec.ndigits A + 28 + 1).
  assert (Hshift : 7 <= shift <= 34) by (unfold shift; lia).
  destruct (0 <=? shift) eqn:E0; [ | apply Z.leb_gt in E0; lia].
  assert (Hsplit : A * 10 ^ shift = (A * 10 ^ (shift - 5)) * 100000).
  { replace shift with ((shift - 5) + 5) at 1 by lia.
    rewrite Z.pow_add_r by lia. change (10 ^ 5) with 100000. lia. }
  assert (Hq : A * 10 ^ shift / 100000 = A * 10 ^ (shift - 5)).
  { rewrite Hsplit. apply Z.div_mul. lia. }
  assert (Hr : (A * 10 ^ shift) mod 100000 = 0).
  { rewrite Hsplit. apply Z.mod_mul. lia. }
  unfold Z.div in Hq. unfold Z.modulo in Hr.
  destruct (Z.div_eucl (A * 10 ^ shift) 100000) as [c r].
  subst c r. change (0 =? 0) with true. cbv iota.
  replace (e - 0 - (e - 0 - shift)) with shift by lia.
  assert (Hpow : 0 < 10 ^ (shift - 5)) by (apply Z.pow_pos_nonneg; lia).
  destruct (Dec.strip_zeros (Z.to_nat shift) (A * 10 ^ (shift - 5))
              (e - 0 - shift)) as [c' e'] eqn:Es.
  apply strip_zeros_spec in Es; [ | nia].
  destruct Es as (j & Hj & He & Hc & Hc' & Hmod).
  rewrite Z2Nat.id in Hj, Hmod by lia.
  assert (Hjlo : shift - 5 <= j).
  { destruct (Z_lt_le_dec j (shift - 5)) as [Hlt | Hge]; [ | exact Hge].
    exfalso. apply Hmod; [lia | ].
    assert (Hc2 : c' = A * 10 ^ (shift - 5 - j - 1) * 10).
    { assert (H10 : 0 < 10 ^ j) by (apply Z.pow_pos_nonneg; lia).
      apply (Z.mul_cancel_r _ _ (10 ^ j)); [lia | ].
      rewrite <- Hc.
      replace (shift - 5) with ((shift - 5 - j - 1) + 1 + j) at 1 by lia.
      rewrite !Z.pow_add_r by lia. change (10 ^ 1) with 10. lia. }
    rewrite Hc2. apply Z.mod_mul. lia. }
  exists c', (j - (shift - 5)).
  assert (Hc3 : c' * 10 ^ (j - (shift - 5)) = A).
  { apply (Z.mul_cancel_r _ _ (10 ^ (shift - 5))); [lia | ].
    rewrite Hc, <- Z.mul_assoc, <- Z.pow_add_r by lia.
    do 2 f_equal. lia. }
  split; [ | split; [lia | exact Hc3]].
  rewrite Z.mul_1_l, fix_small.
  - f_equal. f_equal. lia.
  - assert (H10 : 0 < 10 ^ (j - (shift - 5))) by (apply Z.pow_pos_nonneg; lia).
    nia.
Qed.


(** Division by an integer that divides the coefficient is exact and keeps
    the exponent. *)
Lemma div_divisible (P e T : Z) :
  0 <= P < 10 ^ 28 -> 1 <= T -> P mod T = 0 ->
  Dec.div (Dec.mk P e) (Dec.of_int T) = Dec.Ok (Dec.mk (P / T) e).
Proof.
  intros HP HT Hmod. unfold Dec.div. cbn [Dec.coeff Dec.dexp Dec.of_int].
  destruct (T =? 0) eqn:ET; [apply Z.eqb_eq in ET; lia | ].
  destruct (P =? 0) eqn:EP.
  { apply Z.eqb_eq in EP. subst P. rewrite Z.div_0_l by lia.
    do 2 f_equal. lia. }
  apply Z.eqb_neq in EP.
  rewrite (Z.abs_eq P), (Z.abs_eq T), !Z.sgn_pos by lia.
  pose proof (ndigits_lower T ltac:(lia)) as HlT.
  pose proof (ndigits_upper P 28 ltac:(lia) ltac:(lia)) as HhP.
  unfold Dec.prec. cbv zeta.
  set (shift := Dec.ndigits T - Dec.ndigits P + 28 + 1).
  assert (Hshift : 2 <= shift) by (unfold shift; lia).
  destruct (0 <=? shift) eqn:E0; [ | apply Z.leb_gt in E0; lia].
  pose proof (Z.div_mod P T ltac:(lia)) as HPT. rewrite Hmod, Z.add_0_r in HPT.
  assert (HQ : 0 < P / T) by nia.
  assert (Hsplit : P * 10 ^ shift = (P / T * 10 ^ shift) * T) by nia.
  assert (Hq : P * 10 ^ shift / T = P / T * 10 ^ shift).
  { rewrite Hsplit. apply Z.div_mul. lia. }
  assert (Hr : (P * 10 ^ shift) mod T = 0).
  { rewrite Hsplit. apply Z.mod_mul. lia. }
  unfold Z.div in Hq at 1. unfold Z.modulo in Hr.
  destruct (Z.div_eucl (P * 10 ^ shift) T) as [c r].
  subst c r. change (0 =? 0) with true. cbv iota.
  replace (e - 0 - (e - 0 - shift)) with shift by lia.
  assert (Hpow : 0 < 10 ^ shift) by (apply Z.pow_pos_nonneg; lia).
  destruct (Dec.strip_zeros (Z.to_nat shift) (P / T * 10 ^ shift)
              (e - 0 - shift)) as [c' e'] eqn:Es.
  apply strip_zeros_spec in Es; [ | nia].
  destruct Es as (j & Hj & He & Hc & Hc' & Hnz).
  rewrite Z2Nat.id in Hj, Hnz by lia.
  assert (Hjs : j = shift).
  { destruct (Z.eq_dec j shift) as [Heq | Hneq]; [exact Heq | ].
    exfalso. apply Hnz; [lia | ].
    assert (Hc2 : c' = P / T * 10 ^ (shift - j - 1) * 10).
    { assert (H10 : 0 < 10 ^ j) by (apply Z.pow_pos_nonneg; lia).
      apply (Z.mul_cancel_r _ _ (10 ^ j)); [lia | ].
      rewrite <- Hc.
      replace shift with ((shift - j - 1) + 1 + j) at 1 by lia.
      rewrite !Z.pow_add_r by lia. change (10 ^ 1) with 10. lia. }
    rewrite Hc2. apply Z.mod_mul. lia. }
  subst j.
  assert (Hc3 : c' = P / T).
  { apply (Z.mul_cancel_r _ _ (10 ^ shift)); lia. }
  rewrite Z.mul_1_l, Hc3, fix_small by nia.
  do 2 f_equal. lia.
Qed.

End DecFacts.

Module QFacts.

Lemma ten_nonzero : ~ (inject_Z 10 == 0)%Q.
Proof. discriminate. Qed.

Lemma ten_pow_pos (e : Z) : (0 < inject_Z 10 ^ e)%Q.
Proof. apply Qpower_0_lt. reflexivity. Qed.

(** A coefficient scaled up by [10 ^ d] against an exponent lowered by [d]. *)
Lemma to_Q_rescale (c e m : Z) :
  m <= e ->
  (inject_Z (c * 10 ^ (e - m)) * inject_Z 10 ^ m == inject_Z c * inject_Z 10 ^ e)%Q.
Proof.
  intros Hm.
  rewrite inject_Z_mult, Zpower_Qpower by lia.
  rewrite <- Qmult_assoc, <- Qpower_plus by apply ten_nonzero.
  replace (e - m + m) with e by lia. reflexivity.
Qed.

Lemma compare_to_Q (a b : Dec.decimal) :
  Dec.compare a b = (Dec.to_Q a ?= Dec.to_Q b)%Q.
Proof.
  unfold Dec.compare, Dec.align, Dec.to_Q.
  set (m := Z.min (Dec.dexp a) (Dec.dexp b)).
  rewrite <- (to_Q_rescale (Dec.coeff a) (Dec.dexp a) m) by (unfold m; lia).
  rewrite <- (to_Q_rescale (Dec.coeff b) (Dec.dexp b) m) by (unfold m; lia).
  set (x := Dec.coeff a * 10 ^ (Dec.dexp a - m)).
  set (y := Dec.coeff b * 10 ^ (Dec.dexp b - m)).
  pose proof (ten_pow_pos m) as Hp.
  symmetry. destruct (Z.compare_spec x y) as [H | H | H].
  - apply Qeq_alt. rewrite H. reflexivity.
  - apply Qlt_alt. apply Qmult_lt_r; [exact Hp | ]. rewrite <- Zlt_Qlt. exact H.
  - apply Qgt_alt. apply Qmult_lt_r; [exact Hp | ]. rewrite <- Zlt_Qlt. exact H.
Qed.

Lemma ltb_to_Q (a b : Dec.decimal) :
  Dec.ltb a b = true <-> (Dec.to_Q a < Dec.to_Q b)%Q.
Proof.
  unfold Dec.ltb. rewrite compare_to_Q, Qlt_alt.
  destruct (Dec.to_Q a ?= Dec.to_Q b)%Q; split; congruence.
Qed.

Lemma rate_max_spec (r floor : Dec.decimal) :
  (Dec.to_Q (rate_max r floor) == Qmax (Dec.to_Q r) (Dec.to_Q floor))%Q.
Proof.
  unfold rate_max. destruct (Dec.ltb r floor) eqn:E.
  - apply ltb_to_Q in E. symmetry. apply Q.max_r. apply Qlt_le_weak, E.
  - symmetry. apply Q.max_l. apply Qnot_lt_le. intros H.
    apply ltb_to_Q in H. congruence.
Qed.

End QFacts.

(** ** The numeric tower *)

Lemma py_lt_le (x y : Py.num) : Py.lt x y = true -> Py.le x y = true.
Proof.
  destruct x as [a | f], y as [b | g]; simpl;
    try (apply FloatFacts.ltb_leb).
  intros H. apply Z.ltb_lt in H. apply Z.leb_le. lia.
Qed.

(** A value at most [a] is not above any [b] that [a] does not exceed. *)
Lemma py_le_not_gt (s : Py.num) (a b : Z) :
  a <= b ->
  PrimFloat.leb (Py.float_of_Z a) (Py.float_of_Z b) = true ->
  Py.le s (Py.PyInt a) = true -> Py.gt s (Py.PyInt b) = false.
Proof.
  intros Hab Hf. unfold Py.gt.
  destruct s as [z | f]; simpl.
  - intros H. apply Z.leb_le in H. apply Z.ltb_ge. lia.
  - rewrite FloatAxioms.leb_spec in *. rewrite FloatAxioms.ltb_spec.
    intros Hle.
    destruct (SFltb (Prim2SF (Py.float_of_Z b)) (Prim2SF f)) eqn:E;
      [ | reflexivity].
    pose proof (FloatFacts.SFltb_leb_trans _ _ _ E Hle) as Hlt.
    rewrite (FloatFacts.SFleb_not_ltb _ _ Hf) in Hlt. discriminate.
Qed.

(** The final clamp [min(100, max(0, score))] lands in [0, 100] whatever
    the accumulated score is, NaN included. *)
Lemma clamp_bounds (score : Py.num) :
  let v := Py.min (Py.PyInt 100) (Py.max (Py.PyInt 0) score) in
  Py.le (Py.PyInt 0) v = true /\ Py.le v (Py.PyInt 100) = true.
Proof.
  unfold Py.min, Py.max, Py.gt.
  destruct (Py.lt (Py.PyInt 0) score) eqn:H0.
  - destruct (Py.lt score (Py.PyInt 100)) eqn:H1.
    + split; apply py_lt_le; assumption.
    + split; reflexivity.
  - split; reflexivity.
Qed.

(** ** The data model *)

(** C10. For every loan record, [repayments_left] is
    [max(0, tenure - emis_paid_on_time)], hence never negative, also when
    [emis_paid_on_time] exceeds [tenure]. *)
Theorem repayments_left_spec (l : Loan) :
  repayments_left l = Z.max 0 (tenure l - emis_paid_on_time l)
  /\ 0 <= repayments_left l.
Proof.
  unfold repayments_left, int_max.
  destruct (0 <? tenure l - emis_paid_on_time l) eqn:H.
  - apply Z.ltb_lt in H. lia.
  - apply Z.ltb_ge in H. lia.
Qed.

(** ** The credit scorer *)

Section Scorer.

Variable fsum : list float -> float.

Lemma score_of_history_bounds (c : Customer) (today : date) (loans : list Loan) :
  Py.le (Py.PyInt 0) (score_of_history fsum c today loans) = true
  /\ Py.le (score_of_history fsum c today loans) (Py.PyInt 100) = true.
Proof. unfold score_of_history. apply clamp_bounds. Qed.

(** A customer that does not exist scores the [int] 0. *)
Lemma score_missing (db : database) (today : date) (cid : Z) :
  get_customer db cid = None ->
  calculate_credit_score fsum db today cid = Py.PyInt 0.
Proof. intros H. unfold calculate_credit_score. rewrite H. reflexivity. Qed.

End Scorer.

(** The gate as the code tests it: when
    [current_loans_sum > float(approved_limit)] holds in binary64,
    [calculate_credit_score] returns the integer 0, whatever the rest of
    the history is. *)
Theorem overexposed_scores_zero (fsum : list float -> float)
    (db : database) (today : date) (cid : Z) (c : Customer) :
  get_customer db cid = Some c ->
  Py.gt (Py.sum fsum (float_amounts loan_amount (active_loans db today c)))
        (Py.PyFloat (Dec.to_float (approved_limit c))) = true ->
  calculate_credit_score fsum db today cid = Py.PyInt 0.
Proof.
  intros Hc Hgt. unfold calculate_credit_score. rewrite Hc, Hgt. reflexivity.
Qed.

(** C4, at the failing input: the active loans of the customer sum to
    8796093022208.44, above the limit 8796093022208.43, yet under the
    left-to-right float accumulation of [sum] the gate does not fire and
    the score is 15.0, not 0: the float total 8796093022208.4297 is also
    what [float(approved_limit)] gives.  (Under the compensated [sum] the
    same customer scores 0.) *)
Theorem overexposure_gate_misses_exact_excess :
  Dec.compare
    (dec_sum (map loan_amount
                (active_loans near_limit_db a_day near_limit_customer)))
    (approved_limit near_limit_customer) = Gt
  /\ Py.gt
       (Py.sum Py.fsum_naive
          (float_amounts loan_amount
             (active_loans near_limit_db a_day near_limit_customer)))
       (Py.PyFloat (Dec.to_float (approved_limit near_limit_customer)))
     = false
  /\ calculate_credit_score Py.fsum_naive near_limit_db a_day 1
     = Py.PyFloat 15%float
  /\ calculate_credit_score Py.fsum_naive near_limit_db a_day 1 <> Py.PyInt 0
  /\ calculate_credit_score Py.fsum_neumaier near_limit_db a_day 1
     = Py.PyInt 0.
Proof.
  split; [vm_compute; reflexivity | ].
  split; [vm_compute; reflexivity | ].
  split; [vm_compute; reflexivity | ].
  split; [vm_compute; discriminate | vm_compute; reflexivity].
Qed.

(** C6. For every customer and loan history the score lies in the closed
    interval [0, 100]. *)
Theorem score_in_range (fsum : list float -> float)
    (db : database) (today : date) (cid : Z) :
  Py.le (Py.PyInt 0) (calculate_credit_score fsum db today cid) = true
  /\ Py.le (calculate_credit_score fsum db today cid) (Py.PyInt 100) = true.
Proof.
  unfold calculate_credit_score.
  destruct (get_customer db cid) as [c | ]; [ | split; reflexivity].
  destruct (Py.gt _ _); [split; reflexivity | ].
  destruct (loans_of db c) as [ | l ls]; [split; reflexivity | ].
  apply score_of_history_bounds.
Qed.

(** C7. An existing customer (with a non-negative approved limit, as the
    data model has it) and no loan record at all scores exactly 50. *)
Theorem no_history_scores_50 (fsum : list float -> float)
    (db : database) (today : date) (cid : Z) (c : Customer) :
  get_customer db cid = Some c ->
  0 <= Dec.coeff (approved_limit c) ->
  loans_of db c = [] ->
  calculate_credit_score fsum db today cid = Py.PyInt 50.
Proof.
  intros Hc Hlim Hloans. unfold calculate_credit_score, active_loans.
  rewrite Hc, Hloans. simpl.
  unfold Py.gt, Py.lt. simpl Py.to_float.
  change (Py.float_of_Z 0) with PrimFloat.zero.
  rewrite FloatFacts.to_float_not_neg by assumption.
  reflexivity.
Qed.

(** C1, counterexample: on an empty database customer 1 is missing and
    scores 0, which is also the score of the existing over-exposed
    customer; this holds under either float accumulation. *)
Lemma missing_customer_not_distinct :
  ~ missing_customer_distinct Py.fsum_naive
  /\ ~ missing_customer_distinct Py.fsum_neumaier.
Proof.
  split; intros H;
    apply (H (mkdb [] []) (mkdate 2025 6 1) 1 eq_refl
             overexposed_db (mkdate 2025 6 1) 1);
    try discriminate; vm_compute; reflexivity.
Qed.

(** C1, amended. For every identifier of no existing customer,
    [calculate_credit_score] returns the integer 0 (a score value), and it
    is [check_loan_eligibility] that reports "Customer not found", before
    any scoring. *)
Theorem missing_customer_scores_zero (fsum : list float -> float)
    (pow : Dec.decimal -> Dec.decimal -> Dec.result Dec.decimal)
    (db : database) (today : date) (cid : Z)
    (amount rate : Dec.decimal) (tenure_months : Z) :
  get_customer db cid = None ->
  calculate_credit_score fsum db today cid = Py.PyInt 0
  /\ check_loan_eligibility fsum pow db today cid amount rate tenure_months
     = Dec.Ok (mkdecision false rate (Dec.of_int 0) "Customer not found").
Proof.
  intros H. split.
  - apply score_missing, H.
  - unfold check_loan_eligibility. rewrite H. reflexivity.
Qed.

Lemma missing_customer_scores_zero_witness :
  get_customer (mkdb [] []) 9999 = None
  /\ calculate_credit_score Py.fsum_naive (mkdb [] []) (mkdate 2025 6 1) 9999
     = Py.PyInt 0
  /\ check_loan_eligibility Py.fsum_naive Dec_power (mkdb [] [])
       (mkdate 2025 6 1) 9999 (Dec.mk 5000000 (-2)) (Dec.mk 1000 (-2)) 12
     = Dec.Ok (mkdecision false (Dec.mk 1000 (-2)) (Dec.of_int 0)
                 "Customer not found").
Proof.
  split; [reflexivity | ].
  apply (missing_customer_scores_zero Py.fsum_naive Dec_power (mkdb [] [])
           (mkdate 2025 6 1) 9999 (Dec.mk 5000000 (-2)) (Dec.mk 1000 (-2)) 12).
  reflexivity.
Defined.

(** ** The installment calculator *)

Lemma eqb_zero (r : Dec.decimal) :
  Dec.coeff r = 0 -> Dec.eqb r (Dec.of_int 0) = true.
Proof.
  intros H. unfold Dec.eqb, Dec.compare, Dec.align. rewrite H. reflexivity.
Qed.

Lemma div_ok (a b : Dec.decimal) :
  Dec.coeff b <> 0 -> exists q, Dec.div a b = Dec.Ok q.
Proof.
  intros Hb. unfold Dec.div.
  destruct (Dec.coeff b =? 0) eqn:E; [apply Z.eqb_eq in E; contradiction | ].
  destruct (Dec.coeff a =? 0); [eexists; reflexivity | ].
  cbv zeta.
  destruct (if 0 <=? _ then _ else _) as [c r].
  destruct (r =? 0).
  - destruct (Dec.strip_zeros _ _ _) as [c' e']. eexists; reflexivity.
  - eexists; reflexivity.
Qed.

Lemma round2_two_places (a d : Dec.decimal) :
  Dec.round2 a = Dec.Ok d -> Dec.dexp d = -2.
Proof.
  unfold Dec.round2.
  destruct (Dec.coeff a =? 0); [intros H; injection H as <-; reflexivity | ].
  destruct (Dec.prec <? _); [discriminate | ].
  cbv zeta. destruct (Dec.prec <? _); [discriminate | ].
  intros H; injection H as <-; reflexivity.
Qed.

(** X6. Whatever [calculate_monthly_installment] returns is either rounded to
    the exponent -2 (the main path) or the raw quotient
    [principal / tenure] (the zero-rate and zero-denominator paths). *)
Lemma installment_paths
    (pow : Dec.decimal -> Dec.decimal -> Dec.result Dec.decimal)
    (principal annual_rate : Dec.decimal) (tenure_months : Z) (d : Dec.decimal) :
  calculate_monthly_installment pow principal annual_rate tenure_months
  = Dec.Ok d ->
  Dec.dexp d = -2 \/ Dec.div principal (Dec.of_int tenure_months) = Dec.Ok d.
Proof.
  unfold calculate_monthly_installment.
  destruct (Dec.eqb annual_rate (Dec.of_int 0)); [right; assumption | ].
  destruct (Dec.div annual_rate (Dec.of_int 1200)) as [mr | ]; [ | discriminate].
  simpl. destruct (pow _ _) as [p1 | ]; [ | discriminate].
  simpl. destruct (Dec.eqb _ _); [right; assumption | ].
  destruct (Dec.div _ _) as [emi | ]; [ | discriminate].
  simpl. intros H. left. eapply round2_two_places, H.
Qed.

(** C3, at the failing input: with principal 100, rate 0 and tenure 3 the
    installment is the 28-digit quotient 33.33333333333333333333333333,
    not a value rounded to two fractional digits ([round] would give
    33.33, which is smaller). *)
Theorem zero_rate_installment_unrounded
    (pow : Dec.decimal -> Dec.decimal -> Dec.result Dec.decimal) :
  exists d,
    calculate_monthly_installment pow (Dec.of_int 100) (Dec.of_int 0) 3
    = Dec.Ok d
    /\ d = Dec.mk 3333333333333333333333333333 (-26)
    /\ Dec.dexp d <> -2
    /\ Dec.round2 d = Dec.Ok (Dec.mk 3333 (-2))
    /\ Dec.compare d (Dec.mk 3333 (-2)) = Gt.
Proof.
  eexists. split; [vm_compute; reflexivity | ].
  split; [reflexivity | ].
  split; [discriminate | ].
  split; vm_compute; reflexivity.
Qed.

(** C8. For every principal P >= 0, every zero rate and every tenure
    T >= 1 the installment is the Decimal quotient P / T, returned as it is
    (no interest, no rounding to two places, no exception); it is the
    exact quotient with the exponent of P whenever T divides the
    coefficient of P. *)
Theorem zero_rate_straight_line
    (pow : Dec.decimal -> Dec.decimal -> Dec.result Dec.decimal)
    (principal annual_rate : Dec.decimal) (tenure_months : Z) :
  0 <= Dec.coeff principal ->
  Dec.coeff annual_rate = 0 ->
  1 <= tenure_months ->
  exists q,
    calculate_monthly_installment pow principal annual_rate tenure_months
    = Dec.Ok q
    /\ Dec.div principal (Dec.of_int tenure_months) = Dec.Ok q
    /\ (Dec.coeff principal < 10 ^ 28 ->
        Dec.coeff principal mod tenure_months = 0 ->
        q = Dec.mk (Dec.coeff principal / tenure_months) (Dec.dexp principal)).
Proof.
  intros HP Hr HT.
  destruct (div_ok principal (Dec.of_int tenure_months)) as [q Hq].
  { simpl. lia. }
  exists q. unfold calculate_monthly_installment.
  rewrite (eqb_zero annual_rate Hr).
  split; [exact Hq | ]. split; [exact Hq | ].
  intros Hlt Hmod. destruct principal as [P e]. simpl in *.
  rewrite DecFacts.div_divisible in Hq by lia.
  injection Hq as <-. reflexivity.
Qed.

Lemma zero_rate_straight_line_witness :
  exists q,
    calculate_monthly_installment Dec_power (Dec.mk 1200000 (-2))
      (Dec.mk 0 (-2)) 12 = Dec.Ok q
    /\ Dec.div (Dec.mk 1200000 (-2)) (Dec.of_int 12) = Dec.Ok q
    /\ (1200000 < 10 ^ 28 -> 1200000 mod 12 = 0 ->
        q = Dec.mk (1200000 / 12) (-2)).
Proof.
  apply (zero_rate_straight_line Dec_power (Dec.mk 1200000 (-2))
           (Dec.mk 0 (-2)) 12); simpl; lia.
Defined.

(** ** The rate corrector *)

(** C5. For every score s and requested rate r the corrected rate is at
    least r; it is max(r, 8) when s > 50, max(r, 12) when 30 < s <= 50,
    max(r, 16) when 10 < s <= 30, and r itself when s <= 10. *)
Theorem corrected_rate_is_floor (s : Py.num) (r : Dec.decimal) :
  (Dec.to_Q r <= Dec.to_Q (get_corrected_interest_rate s r))%Q
  /\ (Py.gt s (Py.PyInt 50) = true ->
      (Dec.to_Q (get_corrected_interest_rate s r) == Qmax (Dec.to_Q r) 8)%Q)
  /\ (Py.gt s (Py.PyInt 30) = true -> Py.le s (Py.PyInt 50) = true ->
      (Dec.to_Q (get_corrected_interest_rate s r) == Qmax (Dec.to_Q r) 12)%Q)
  /\ (Py.gt s (Py.PyInt 10) = true -> Py.le s (Py.PyInt 30) = true ->
      (Dec.to_Q (get_corrected_interest_rate s r) == Qmax (Dec.to_Q r) 16)%Q)
  /\ (Py.le s (Py.PyInt 10) = true -> get_corrected_interest_rate s r = r).
Proof.
  assert (H8 : (Dec.to_Q rate_8 == 8)%Q) by reflexivity.
  assert (H12 : (Dec.to_Q rate_12 == 12)%Q) by reflexivity.
  assert (H16 : (Dec.to_Q rate_16 == 16)%Q) by reflexivity.
  assert (Hnot : forall a b, a <= b ->
            PrimFloat.leb (Py.float_of_Z a) (Py.float_of_Z b) = true ->
            Py.le s (Py.PyInt a) = true -> Py.gt s (Py.PyInt b) = false)
    by (intros a b; apply py_le_not_gt).
  unfold get_corrected_interest_rate.
  split; [ | split; [ | split; [ | split]]].
  - destruct (Py.gt s (Py.PyInt 50)); [ | destruct (Py.gt s (Py.PyInt 30));
      [ | destruct (Py.gt s (Py.PyInt 10))]];
      try (rewrite QFacts.rate_max_spec; apply Q.le_max_l).
    apply Qle_refl.
  - intros ->. rewrite QFacts.rate_max_spec, H8. reflexivity.
  - intros H30 H50.
    rewrite (Hnot 50 50 ltac:(lia) eq_refl H50), H30.
    rewrite QFacts.rate_max_spec, H12. reflexivity.
  - intros H10 H30.
    rewrite (Hnot 30 50 ltac:(lia) eq_refl H30),
            (Hnot 30 30 ltac:(lia) eq_refl H30), H10.
    rewrite QFacts.rate_max_spec, H16. reflexivity.
  - intros H10.
    rewrite (Hnot 10 50 ltac:(lia) eq_refl H10),
            (Hnot 10 30 ltac:(lia) eq_refl H10),
            (Hnot 10 10 ltac:(lia) eq_refl H10).
    reflexivity.
Qed.

(** The band 30 < s <= 50 at the score 50 of a new customer and the
    requested rate 10.00: the corrected rate is max(10, 12). *)
Lemma corrected_rate_is_floor_witness :
  (Dec.to_Q (get_corrected_interest_rate (Py.PyInt 50) (Dec.mk 1000 (-2)))
   == Qmax (Dec.to_Q (Dec.mk 1000 (-2))) 12)%Q.
Proof.
  apply (proj1 (proj2 (proj2
           (corrected_rate_is_floor (Py.PyInt 50) (Dec.mk 1000 (-2))))));
    reflexivity.
Defined.

(** ** Registration *)

Lemma registration_limit_spec (k : Z) :
  0 <= k < 10 ^ 10 ->
  exists L,
    registration_limit (Dec.mk k (-2)) = Dec.Ok L
    /\ L mod 100000 = 0
    /\ 36 * k <= 100 * L < 36 * k + 100 * 100000.
Proof.
  intros Hk. unfold registration_limit, Dec.mul.
  cbn [Dec.coeff Dec.dexp Dec.of_int].
  rewrite DecFacts.fix_small by lia.
  destruct (Z.eq_dec k 0) as [-> | Hne].
  - exists 0. repeat split; try reflexivity; lia.
  - destruct (DecFacts.div_100000 (36 * k) (0 + -2) ltac:(lia))
      as (c' & t & Hdiv & Ht & Hc).
    rewrite Hdiv. cbn [Dec.bind].
    eexists. split; [reflexivity | ].
    unfold Dec.ceil. cbn [Dec.coeff Dec.dexp].
    destruct (0 <=? 0 + -2 - 5 + t) eqn:E; [apply Z.leb_le in E; lia | ].
    unfold Dec.round_ceiling.
    replace (- (0 + -2 - 5 + t)) with (7 - t) by lia.
    set (D := 10 ^ (7 - t)).
    assert (HD : 0 < D) by (apply Z.pow_pos_nonneg; lia).
    assert (HDt : D * 10 ^ t = 10000000).
    { unfold D. rewrite <- Z.pow_add_r by lia.
      replace (7 - t + t) with 7 by lia. reflexivity. }
    assert (Ht10 : 0 < 10 ^ t) by (apply Z.pow_pos_nonneg; lia).
    pose proof (Z.div_mod (- c') D ltac:(lia)) as Hdm.
    pose proof (Z.mod_pos_bound (- c') D HD) as Hm.
    set (q := - c' / D) in *. set (r := (- c') mod D) in *.
    split.
    + apply Z.mod_mul. lia.
    + nia.
Qed.

(** C9. For every non-negative monthly income the serializer lets through
    (k hundredths, at most 10 digits), the approved limit that [create]
    stores is 36 times the income rounded up to a multiple of 100000: a
    multiple L of 100000 with 36 * income <= L < 36 * income + 100000. *)
Theorem approved_limit_rounds_up (new_id : Z) (validated_data : registration)
    (k : Z) :
  reg_monthly_income validated_data = Dec.mk k (-2) ->
  0 <= k < 10 ^ 10 ->
  exists cust L,
    create new_id validated_data = Dec.Ok cust
    /\ approved_limit cust = Dec.of_int L
    /\ monthly_salary cust = Dec.mk k (-2)
    /\ L mod 100000 = 0
    /\ 36 * k <= 100 * L < 36 * k + 100 * 100000.
Proof.
  intros Hinc Hk.
  destruct (registration_limit_spec k Hk) as (L & HL & Hmul & Hbounds).
  unfold create. rewrite Hinc, HL. cbn [Dec.bind].
  eexists. exists L. repeat split; try assumption; try reflexivity; lia.
Qed.

(** Income 15000.00: 36 * 15000 = 540000 goes up to 600000. *)
Lemma approved_limit_rounds_up_witness :
  exists cust L,
    create 7 (mkregistration 25 (Dec.mk 1500000 (-2)) 5555555555) = Dec.Ok cust
    /\ approved_limit cust = Dec.of_int L
    /\ monthly_salary cust = Dec.mk 1500000 (-2)
    /\ L mod 100000 = 0
    /\ 36 * 1500000 <= 100 * L < 36 * 1500000 + 100 * 100000.
Proof.
  apply (approved_limit_rounds_up 7
           (mkregistration 25 (Dec.mk 1500000 (-2)) 5555555555) 1500000).
  - reflexivity.
  - lia.
Defined.

Example approved_limit_15000 :
  registration_limit (Dec.mk 1500000 (-2)) = Dec.Ok 600000.
Proof. vm_compute. reflexivity. Qed.

(** ** Witnesses of the scorer *)

Lemma overexposed_scores_zero_witness :
  calculate_credit_score Py.fsum_naive overexposed_db a_day 1 = Py.PyInt 0.
Proof.
  apply (overexposed_scores_zero Py.fsum_naive overexposed_db a_day 1
           overexposed_customer); reflexivity.
Defined.

Lemma no_history_scores_50_witness :
  calculate_credit_score Py.fsum_naive new_customer_db a_day 1 = Py.PyInt 50.
Proof.
  apply (no_history_scores_50 Py.fsum_naive new_customer_db a_day 1
           new_customer); [reflexivity | simpl; lia | reflexivity].
Defined.

(** ** The eligibility decision engine *)

(** The order of the checks, each under the tests the code performs.
    [check_loan_eligibility] applies its checks in a fixed order and
    stops at the first that fails: a missing customer gives "Customer not
    found"; then, the installment being computed, a score <= 10 gives
    "Credit score too low"; otherwise active installments plus the new one
    above half the salary (the test of the code, [emis_exceed_half_salary])
    give "EMIs exceed 50% of monthly salary"; otherwise an amount above the
    approved limit gives "Loan amount exceeds approved limit"; otherwise
    the loan is approved.  A rejection of an existing customer carries one
    of the three business messages. *)
Theorem eligibility_checks_in_order (fsum : list float -> float)
    (pow : Dec.decimal -> Dec.decimal -> Dec.result Dec.decimal)
    (db : database) (today : date) (cid : Z)
    (amount rate : Dec.decimal) (tenure_months : Z) :
  let check :=
    check_loan_eligibility fsum pow db today cid amount rate tenure_months in
  let score := calculate_credit_score fsum db today cid in
  let corrected := get_corrected_interest_rate score rate in
  (get_customer db cid = None ->
   check = Dec.Ok (mkdecision false rate (Dec.of_int 0) "Customer not found"))
  /\ (forall c installment,
        get_customer db cid = Some c ->
        calculate_monthly_installment pow amount corrected tenure_months
        = Dec.Ok installment ->
        (Py.le score (Py.PyInt 10) = true ->
         check = Dec.Ok (mkdecision false corrected installment
                           "Credit score too low"))
        /\ (Py.le score (Py.PyInt 10) = false ->
            emis_exceed_half_salary fsum db today c installment = true ->
            check = Dec.Ok (mkdecision false corrected installment
                              "EMIs exceed 50% of monthly salary"))
        /\ (Py.le score (Py.PyInt 10) = false ->
            emis_exceed_half_salary fsum db today c installment = false ->
            (Dec.to_Q (approved_limit c) < Dec.to_Q amount)%Q ->
            check = Dec.Ok (mkdecision false corrected installment
                              "Loan amount exceeds approved limit"))
        /\ (Py.le score (Py.PyInt 10) = false ->
            emis_exceed_half_salary fsum db today c installment = false ->
            (Dec.to_Q amount <= Dec.to_Q (approved_limit c))%Q ->
            check = Dec.Ok (mkdecision true corrected installment
                              "Loan approved")))
  /\ (forall d,
        check = Dec.Ok d -> approved d = false ->
        get_customer db cid <> None ->
        In (message d) business_rejections)
  /\ (forall d,
        check = Dec.Ok d -> approved d = true ->
        message d = "Loan approved"%string).
Proof.
  cbv zeta. unfold check_loan_eligibility.
  split; [intros ->; reflexivity | ].
  split.
  - intros c installment -> ->. cbn [Dec.bind].
    repeat split.
    + intros ->. reflexivity.
    + intros -> ->. reflexivity.
    + intros -> -> H. apply QFacts.ltb_to_Q in H. rewrite H. reflexivity.
    + intros -> -> H.
      destruct (Dec.ltb (approved_limit c) amount) eqn:E; [ | reflexivity].
      apply QFacts.ltb_to_Q in E. exfalso. exact (Qlt_not_le _ _ E H).
  - destruct (get_customer db cid) as [c | ].
    + destruct (calculate_monthly_installment _ _ _ _) as [inst | ];
        cbn [Dec.bind]; [ | split; intros d H; discriminate].
      destruct (Py.le _ _); [ | destruct (emis_exceed_half_salary _ _ _ _ _);
        [ | destruct (Dec.ltb _ _)]];
        (split; intros d H; injection H as <-; cbn [approved message];
         unfold business_rejections; simpl; intros; try discriminate; auto).
    + split; intros d H; injection H as <-; cbn [approved message]; intros.
      * contradiction.
      * discriminate.
Qed.

(** Scenario A of the specification: a new customer (score 50) asks for
    100000 at 10% over 12 months and is approved at 12% with an
    installment of 8884.88. *)
Lemma eligibility_checks_in_order_witness :
  check_loan_eligibility Py.fsum_naive Dec_power new_customer_db a_day 1
    (Dec.mk 100000 0) (Dec.mk 10 0) 12
  = Dec.Ok (mkdecision true rate_12 (Dec.mk 888488 (-2)) "Loan approved").
Proof.
  apply (proj2 (proj2 (proj2
    (proj1 (proj2 (eligibility_checks_in_order Py.fsum_naive Dec_power
       new_customer_db a_day 1 (Dec.mk 100000 0) (Dec.mk 10 0) 12))
     new_customer (Dec.mk 888488 (-2)) eq_refl
     ltac:(vm_compute; reflexivity)))));
    vm_compute; congruence.
Defined.

(** The unrounded zero-rate installment reaches the caller of
    [check_loan_eligibility]: an over-exposed customer (score 0) asking
    for 100 at 0% over 3 months is rejected with the 28-digit quotient. *)
Example rejection_carries_unrounded_installment :
  check_loan_eligibility Py.fsum_naive Dec_power overexposed_db a_day 1
    (Dec.of_int 100) (Dec.of_int 0) 3
  = Dec.Ok (mkdecision false (Dec.of_int 0)
              (Dec.mk 3333333333333333333333333333 (-26))
              "Credit score too low").
Proof. vm_compute. reflexivity. Qed.

(** C2, at the failing input: the customer earns 50537.88 and repays
    16384.06 a month; 100000.00 at 12.00% over 12 months costs 8884.88 a
    month, so the installments total 25268.94, exactly half the salary and
    not above it; the score is above 10 and the amount within the limit.
    The third check still fires, because [16384.06 + 8884.88] is
    25268.940000000002 in binary64: the request is rejected with "EMIs
    exceed 50% of monthly salary" instead of being approved, under either
    float accumulation. *)
Theorem emi_rule_rejects_at_exactly_half :
  Dec.compare
    (Dec.add
       (dec_sum (map monthly_repayment
                   (active_loans half_salary_db a_day half_salary_customer)))
       (Dec.mk 888488 (-2)))
    (Dec.mul (monthly_salary half_salary_customer) (Dec.mk 5 (-1))) = Eq
  /\ Py.le (calculate_credit_score Py.fsum_naive half_salary_db a_day 1)
       (Py.PyInt 10) = false
  /\ Dec.ltb (approved_limit half_salary_customer) (Dec.mk 10000000 (-2))
     = false
  /\ check_loan_eligibility Py.fsum_naive Dec_power half_salary_db a_day 1
       (Dec.mk 10000000 (-2)) (Dec.mk 1200 (-2)) 12
     = Dec.Ok (mkdecision false (Dec.mk 1200 (-2)) (Dec.mk 888488 (-2))
                 "EMIs exceed 50% of monthly salary")
  /\ check_loan_eligibility Py.fsum_neumaier Dec_power half_salary_db a_day 1
       (Dec.mk 10000000 (-2)) (Dec.mk 1200 (-2)) 12
     = Dec.Ok (mkdecision false (Dec.mk 1200 (-2)) (Dec.mk 888488 (-2))
                 "EMIs exceed 50% of monthly salary").
Proof.
  split; [vm_compute; reflexivity | ].
  split; [vm_compute; reflexivity | ].
  split; [vm_compute; reflexivity | ].
  split; vm_compute; reflexivity.
Qed.

(** * Further properties *)

(** ** The decision engine, continued *)

(** Outcomes of the final clamp. *)
Lemma clamp_cases (s : Py.num) :
  let v := Py.min (Py.PyInt 100) (Py.max (Py.PyInt 0) s) in
  v = Py.PyInt 0 \/ v = Py.PyInt 100
  \/ (v = s /\ Py.lt (Py.PyInt 0) s = true).
Proof.
  unfold Py.min, Py.max, Py.gt.
  destruct (Py.lt (Py.PyInt 0) s) eqn:H0.
  - destruct (Py.lt s (Py.PyInt 100)); auto.
  - left. reflexivity.
Qed.

(** A float above some float is comparable with every number. *)
Lemma SFcompare_total (x y z : spec_float) :
  SFltb x y = true -> z <> S754_nan -> SFleb y z = false -> SFltb z y = true.
Proof.
  unfold SFltb, SFleb. rewrite (FloatFacts.SFcompare_swap y z).
  destruct x as [[] | [] | | [] mx ex], y as [[] | [] | | [] my ey],
           z as [[] | [] | | [] mz ez];
    simpl; try congruence;
    destruct (ey ?= ez); simpl; try congruence;
    destruct (Pos.compare_cont Eq my mz); simpl; congruence.
Qed.

(** A score is never NaN: when it is not at most 10 it is above 10. *)
Lemma score_above_10 (fsum : list float -> float)
    (db : database) (today : date) (cid : Z) :
  Py.le (calculate_credit_score fsum db today cid) (Py.PyInt 10) = false ->
  Py.gt (calculate_credit_score fsum db today cid) (Py.PyInt 10) = true.
Proof.
  unfold calculate_credit_score.
  destruct (get_customer db cid) as [c | ]; [ | discriminate].
  destruct (Py.gt _ _); [discriminate | ].
  destruct (loans_of db c) as [ | l ls]; [intros _; reflexivity | ].
  unfold score_of_history.
  match goal with |- context [Py.min _ (Py.max _ ?s)] =>
    destruct (clamp_cases s) as [-> | [-> | [-> Hpos]]];
      try discriminate; try (intros _; reflexivity);
      revert Hpos; generalize s
  end.
  intros v. unfold Py.gt. destruct v as [z | f]; simpl.
  - intros _ H. apply Z.leb_gt in H. apply Z.ltb_lt. lia.
  - rewrite FloatAxioms.leb_spec, !FloatAxioms.ltb_spec.
    intros Hpos Hle. eapply SFcompare_total; eauto.
    vm_compute. discriminate.
Qed.

Lemma rate_floor_bands (s : Py.num) (r : Dec.decimal) :
  Py.gt s (Py.PyInt 10) = true ->
  (8 <= Dec.to_Q (get_corrected_interest_rate s r))%Q.
Proof.
  intros H10. unfold get_corrected_interest_rate.
  destruct (Py.gt s (Py.PyInt 50)); [ | destruct (Py.gt s (Py.PyInt 30));
    [ | rewrite H10]];
    rewrite QFacts.rate_max_spec;
    (eapply Qle_trans; [ | apply Q.le_max_r]); vm_compute; discriminate.
Qed.

Lemma rate_not_lowered (s : Py.num) (r : Dec.decimal) :
  (Dec.to_Q r <= Dec.to_Q (get_corrected_interest_rate s r))%Q.
Proof.
  unfold get_corrected_interest_rate.
  destruct (Py.gt s (Py.PyInt 50)); [ | destruct (Py.gt s (Py.PyInt 30));
    [ | destruct (Py.gt s (Py.PyInt 10))]];
    try (rewrite QFacts.rate_max_spec; apply Q.le_max_l).
  apply Qle_refl.
Qed.

Section Decisions.

Variable fsum : list float -> float.
Variable pow : Dec.decimal -> Dec.decimal -> Dec.result Dec.decimal.

Lemma decision_rate (db : database) (today : date) (cid : Z)
    (amount rate : Dec.decimal) (tenure_months : Z) (c : Customer)
    (d : decision) :
  get_customer db cid = Some c ->
  check_loan_eligibility fsum pow db today cid amount rate tenure_months
  = Dec.Ok d ->
  corrected_interest_rate d
  = get_corrected_interest_rate (calculate_credit_score fsum db today cid) rate.
Proof.
  intros Hc. unfold check_loan_eligibility. rewrite Hc.
  destruct (calculate_monthly_installment _ _ _ _) as [inst | e0];
    cbn [Dec.bind]; [ | discriminate].
  destruct (Py.le _ _); [ | destruct (emis_exceed_half_salary _ _ _ _ _);
    [ | destruct (Dec.ltb _ _)]];
    intros H; injection H as <-; reflexivity.
Qed.

Lemma decision_installment (db : database) (today : date) (cid : Z)
    (amount rate : Dec.decimal) (tenure_months : Z) (c : Customer)
    (d : decision) :
  get_customer db cid = Some c ->
  check_loan_eligibility fsum pow db today cid amount rate tenure_months
  = Dec.Ok d ->
  calculate_monthly_installment pow amount (corrected_interest_rate d)
    tenure_months
  = Dec.Ok (monthly_installment d).
Proof.
  intros Hc. unfold check_loan_eligibility. rewrite Hc.
  destruct (calculate_monthly_installment _ _ _ _) as [inst | e0] eqn:Hi;
    cbn [Dec.bind]; [ | discriminate].
  destruct (Py.le _ _); [ | destruct (emis_exceed_half_salary _ _ _ _ _);
    [ | destruct (Dec.ltb _ _)]];
    intros H; injection H as <-; exact Hi.
Qed.

Lemma no_loans_score_50 (db : database) (today : date) (cid : Z)
    (c : Customer) :
  get_customer db cid = Some c ->
  0 <= Dec.coeff (approved_limit c) ->
  loans_of db c = [] ->
  calculate_credit_score fsum db today cid = Py.PyInt 50.
Proof.
  intros Hc Hlim Hloans.
  unfold calculate_credit_score, active_loans.
  rewrite Hc, Hloans. simpl.
  unfold Py.gt, Py.lt. simpl Py.to_float.
  change (Py.float_of_Z 0) with PrimFloat.zero.
  rewrite FloatFacts.to_float_not_neg by assumption. reflexivity.
Qed.

(** X1. Every decision on an existing customer, approval or rejection, carries
    the corrected rate and the installment computed at that rate; an
    exception of the installment computation is the exception of the
    decision. *)
Theorem decision_carries_installment (db : database) (today : date) (cid : Z)
    (amount rate : Dec.decimal) (tenure_months : Z) (c : Customer) :
  get_customer db cid = Some c ->
  let corrected :=
    get_corrected_interest_rate (calculate_credit_score fsum db today cid) rate in
  (forall d,
     check_loan_eligibility fsum pow db today cid amount rate tenure_months
     = Dec.Ok d ->
     corrected_interest_rate d = corrected
     /\ calculate_monthly_installment pow amount corrected tenure_months
        = Dec.Ok (monthly_installment d))
  /\ (forall e,
        calculate_monthly_installment pow amount corrected tenure_months
        = Dec.Raise e ->
        check_loan_eligibility fsum pow db today cid amount rate tenure_months
        = Dec.Raise e).
Proof.
  intros Hc. cbv zeta. unfold check_loan_eligibility. rewrite Hc.
  destruct (calculate_monthly_installment _ _ _ _) as [inst | e0];
    cbn [Dec.bind].
  - split; [ | intros e H; discriminate].
    intros d.
    destruct (Py.le _ _); [ | destruct (emis_exceed_half_salary _ _ _ _ _);
      [ | destruct (Dec.ltb _ _)]];
      intros H; injection H as <-; split; reflexivity.
  - split; [intros d H; discriminate | ].
    intros e H. injection H as ->. reflexivity.
Qed.

(** X2. An approved loan is never priced below 8% nor below the requested
    rate. *)
Theorem approved_rate_at_least_8 (db : database) (today : date) (cid : Z)
    (amount rate : Dec.decimal) (tenure_months : Z) (d : decision) :
  check_loan_eligibility fsum pow db today cid amount rate tenure_months
  = Dec.Ok d ->
  approved d = true ->
  (8 <= Dec.to_Q (corrected_interest_rate d))%Q
  /\ (Dec.to_Q rate <= Dec.to_Q (corrected_interest_rate d))%Q.
Proof.
  unfold check_loan_eligibility.
  destruct (get_customer db cid) as [c | ];
    [ | intros H; injection H as <-; discriminate].
  destruct (calculate_monthly_installment _ _ _ _) as [inst | e0];
    cbn [Dec.bind]; [ | discriminate].
  destruct (Py.le _ _) eqn:Hle;
    [intros H; injection H as <-; discriminate | ].
  apply score_above_10 in Hle.
  destruct (emis_exceed_half_salary _ _ _ _ _);
    [intros H; injection H as <-; discriminate | ].
  destruct (Dec.ltb _ _); intros H; injection H as <-;
    [discriminate | ].
  intros _. cbn [corrected_interest_rate]. split.
  - apply rate_floor_bands, Hle.
  - apply rate_not_lowered.
Qed.

(** X3. A customer over the approved limit is rejected with "Credit score too
    low", at the requested rate left as it is, whatever is asked. *)
Theorem overexposed_rejected (db : database) (today : date) (cid : Z)
    (amount rate : Dec.decimal) (tenure_months : Z) (c : Customer)
    (inst : Dec.decimal) :
  get_customer db cid = Some c ->
  Py.gt (Py.sum fsum (float_amounts loan_amount (active_loans db today c)))
        (Py.PyFloat (Dec.to_float (approved_limit c))) = true ->
  calculate_monthly_installment pow amount rate tenure_months = Dec.Ok inst ->
  check_loan_eligibility fsum pow db today cid amount rate tenure_months
  = Dec.Ok (mkdecision false rate inst "Credit score too low").
Proof.
  intros Hc Hgate Hinst. unfold check_loan_eligibility, calculate_credit_score.
  rewrite Hc, Hgate.
  change (get_corrected_interest_rate (Py.PyInt 0) rate) with rate.
  rewrite Hinst. reflexivity.
Qed.

(** X4. A customer without any loan is quoted max(requested, 12) in every
    decision. *)
Theorem new_customer_rate (db : database) (today : date) (cid : Z)
    (amount rate : Dec.decimal) (tenure_months : Z) (c : Customer)
    (d : decision) :
  get_customer db cid = Some c ->
  0 <= Dec.coeff (approved_limit c) ->
  loans_of db c = [] ->
  check_loan_eligibility fsum pow db today cid amount rate tenure_months
  = Dec.Ok d ->
  (Dec.to_Q (corrected_interest_rate d) == Qmax (Dec.to_Q rate) 12)%Q.
Proof.
  intros Hc Hlim Hloans Hd.
  rewrite (decision_rate db today cid amount rate tenure_months c d Hc Hd).
  rewrite (no_loans_score_50 db today cid c Hc Hlim Hloans).
  change (get_corrected_interest_rate (Py.PyInt 50) rate)
    with (rate_max rate rate_12).
  rewrite QFacts.rate_max_spec.
  assert (E : (Dec.to_Q rate_12 == 12)%Q) by (vm_compute; reflexivity).
  rewrite E. reflexivity.
Qed.

End Decisions.

Lemma sub_equal_is_zero (p q : Dec.decimal) :
  Dec.compare p q = Eq -> Dec.eqb (Dec.sub p q) (Dec.of_int 0) = true.
Proof.
  unfold Dec.compare, Dec.sub, Dec.add, Dec.neg, Dec.align. cbn [Dec.coeff Dec.dexp].
  intros H. apply Z.compare_eq in H.
  rewrite Z.mul_opp_l, H, Z.add_opp_diag_r.
  apply eqb_zero. reflexivity.
Qed.

Lemma div_by_zero_raises (a : Dec.decimal) :
  exists e, Dec.div a (Dec.of_int 0) = Dec.Raise e.
Proof.
  unfold Dec.div. cbn [Dec.coeff Dec.of_int]. simpl (0 =? 0).
  cbv iota. destruct (Dec.coeff a =? 0); eexists; reflexivity.
Qed.

(** X5. A tenure of zero months never yields an installment: every path ends
    in an exception (a division by the zero tenure, or the exception of
    the power), given that a power with exponent 0 is 1 when it is
    defined. *)
Theorem zero_tenure_raises
    (pow : Dec.decimal -> Dec.decimal -> Dec.result Dec.decimal)
    (principal annual_rate : Dec.decimal) :
  (forall a p, pow a (Dec.of_int 0) = Dec.Ok p ->
               Dec.compare p (Dec.of_int 1) = Eq) ->
  exists e,
    calculate_monthly_installment pow principal annual_rate 0 = Dec.Raise e.
Proof.
  intros Hpow. unfold calculate_monthly_installment.
  destruct (Dec.eqb annual_rate (Dec.of_int 0)); [apply div_by_zero_raises | ].
  destruct (Dec.div annual_rate (Dec.of_int 1200)) as [mr | e];
    cbn [Dec.bind]; [ | eexists; reflexivity].
  destruct (pow _ _) as [p | e] eqn:Hp; cbn [Dec.bind];
    [ | eexists; reflexivity].
  rewrite (sub_equal_is_zero _ _ (Hpow _ _ Hp)).
  apply div_by_zero_raises.
Qed.

Lemma zero_tenure_raises_witness :
  exists e,
    calculate_monthly_installment Dec_power (Dec.mk 100000 0) (Dec.mk 10 0) 0
    = Dec.Raise e.
Proof.
  apply (zero_tenure_raises Dec_power (Dec.mk 100000 0) (Dec.mk 10 0)).
  intros a p H. unfold Dec_power in H. simpl in H.
  injection H as <-. rewrite Z.mul_0_r. reflexivity.
Defined.

(** The new customer of the reference data, asking for 100000 at 10% over
    12 months: the decision carries 12% and the installment at 12%. *)
Lemma decision_carries_installment_witness :
  corrected_interest_rate
    (mkdecision true rate_12 (Dec.mk 888488 (-2)) "Loan approved")
  = rate_12
  /\ calculate_monthly_installment Dec_power (Dec.mk 100000 0) rate_12 12
     = Dec.Ok (monthly_installment
                 (mkdecision true rate_12 (Dec.mk 888488 (-2)) "Loan approved")).
Proof.
  exact (proj1 (decision_carries_installment Py.fsum_naive Dec_power
                  new_customer_db a_day 1 (Dec.mk 100000 0) (Dec.mk 10 0) 12
                  new_customer eq_refl)
           (mkdecision true rate_12 (Dec.mk 888488 (-2)) "Loan approved")
           ltac:(vm_compute; reflexivity)).
Defined.

Lemma approved_rate_at_least_8_witness :
  (8 <= Dec.to_Q rate_12)%Q /\ (Dec.to_Q (Dec.mk 10 0) <= Dec.to_Q rate_12)%Q.
Proof.
  exact (approved_rate_at_least_8 Py.fsum_naive Dec_power new_customer_db
           a_day 1 (Dec.mk 100000 0) (Dec.mk 10 0) 12
           (mkdecision true rate_12 (Dec.mk 888488 (-2)) "Loan approved")
           ltac:(vm_compute; reflexivity) eq_refl).
Defined.

Lemma overexposed_rejected_witness :
  check_loan_eligibility Py.fsum_naive Dec_power overexposed_db a_day 1
    (Dec.mk 100000 0) (Dec.mk 10 0) 12
  = Dec.Ok (mkdecision false (Dec.mk 10 0) (Dec.mk 879159 (-2))
              "Credit score too low").
Proof.
  apply (overexposed_rejected Py.fsum_naive Dec_power overexposed_db a_day 1
           (Dec.mk 100000 0) (Dec.mk 10 0) 12 overexposed_customer
           (Dec.mk 879159 (-2)));
    vm_compute; reflexivity.
Defined.

Lemma new_customer_rate_witness :
  (Dec.to_Q rate_12 == Qmax (Dec.to_Q (Dec.mk 10 0)) 12)%Q.
Proof.
  exact (new_customer_rate Py.fsum_naive Dec_power new_customer_db a_day 1
           (Dec.mk 100000 0) (Dec.mk 10 0) 12 new_customer
           (mkdecision true rate_12 (Dec.mk 888488 (-2)) "Loan approved")
           eq_refl ltac:(vm_compute; discriminate) eq_refl
           ltac:(vm_compute; reflexivity)).
Defined.

Lemma installment_paths_witness :
  Dec.dexp (Dec.mk 888488 (-2)) = -2
  \/ Dec.div (Dec.mk 100000 0) (Dec.of_int 12) = Dec.Ok (Dec.mk 888488 (-2)).
Proof.
  exact (installment_paths Dec_power (Dec.mk 100000 0) rate_12 12
           (Dec.mk 888488 (-2)) ltac:(vm_compute; reflexivity)).
Defined.

(** ** Registration: the phone hook and the limit *)

Lemma ndigits_abs (n : Z) : Dec.ndigits n = Dec.ndigits (Z.abs n).
Proof. unfold Dec.ndigits. rewrite Z.abs_idemp. reflexivity. Qed.

Lemma ndigits_at_least (n d : Z) :
  0 < n -> 1 <= d -> (d <= Dec.ndigits n <-> 10 ^ (d - 1) <= n).
Proof.
  intros Hn Hd. pose proof (DecFacts.ndigits_spec n Hn) as [Hlo Hhi].
  pose proof (DecFacts.ndigits_lower n Hn) as H1.
  split; intros H.
  - eapply Z.le_trans; [ | exact Hlo]. apply Z.pow_le_mono_r; lia.
  - destruct (Z_lt_le_dec (Dec.ndigits n) d) as [Hlt | ]; [ | assumption].
    exfalso.
    assert (10 ^ Dec.ndigits n <= 10 ^ (d - 1))
      by (apply Z.pow_le_mono_r; lia).
    lia.
Qed.

Lemma str_len_at_least_10 (v : Z) :
  (str_len v <? 10) = false <-> (10 ^ 9 <= v \/ v <= - 10 ^ 8).
Proof.
  unfold str_len. rewrite Z.ltb_ge.
  destruct (v <? 0) eqn:E.
  - apply Z.ltb_lt in E. rewrite ndigits_abs, Z.abs_neq by lia.
    pose proof (ndigits_at_least (- v) 9 ltac:(lia) ltac:(lia)) as H.
    change (9 - 1) with 8 in H. split.
    + intros Hl. right. apply Z.opp_le_mono. rewrite Z.opp_involutive.
      apply H. lia.
    + intros [Hr | Hr]; [lia | ].
      assert (9 <= Dec.ndigits (- v)) by (apply H; lia). lia.
  - apply Z.ltb_ge in E.
    destruct (Z.eq_dec v 0) as [-> | Hne].
    + split; [intros H; vm_compute in H; exfalso; apply H; reflexivity | ].
      intros [H | H]; vm_compute in H; exfalso; apply H; reflexivity.
    + pose proof (ndigits_at_least v 10 ltac:(lia) ltac:(lia)) as H.
      change (10 - 1) with 9 in H. split.
      * intros Hl. left. apply H. exact Hl.
      * intros [Hr | Hr]; [apply H; exact Hr | lia].
Qed.

Lemma existsb_phone_false (cs : list Customer) (v : Z) :
  existsb (fun c => phone_number c =? v) cs = false
  <-> (forall c, In c cs -> phone_number c <> v).
Proof.
  split.
  - intros H c Hin Heq.
    assert (existsb (fun c => phone_number c =? v) cs = true).
    { apply existsb_exists. exists c. split; [assumption | ].
      apply Z.eqb_eq, Heq. }
    congruence.
  - intros H. destruct (existsb _ cs) eqn:E; [ | reflexivity].
    apply existsb_exists in E. destruct E as (c & Hin & Heq).
    apply Z.eqb_eq in Heq. exfalso. exact (H c Hin Heq).
Qed.

(** X7. The phone hook accepts a number exactly when no customer has it and
    its decimal text has at least ten characters, the minus sign
    included: a number from 10^9 up, or a negative one from -10^8 down.
    An accepted number is handed back as it is. *)
Theorem phone_number_accepted_iff (db : database) (value : Z) :
  ((exists v, validate_phone_number db value = Accepted v)
   <-> ((forall c, In c (customers db) -> phone_number c <> value)
        /\ (10 ^ 9 <= value \/ value <= - 10 ^ 8)))
  /\ (forall v, validate_phone_number db value = Accepted v -> v = value).
Proof.
  unfold validate_phone_number.
  rewrite <- existsb_phone_false, <- str_len_at_least_10.
  destruct (existsb _ _); [ | destruct (str_len value <? 10)].
  - split; [ | intros v H; discriminate].
    split; [intros [v H]; discriminate | intros [H _]; discriminate].
  - split; [ | intros v H; discriminate].
    split; [intros [v H]; discriminate | intros [_ H]; discriminate].
  - split; [ | intros v H; injection H as <-; reflexivity].
    split; [intros _; split; reflexivity | intros _; eexists; reflexivity].
Qed.

(** A nine-digit negative number passes the length test of the phone
    hook (its text has ten characters), a nine-digit positive one does
    not. *)
Example negative_nine_digits_accepted :
  validate_phone_number (mkdb [] []) (-123456789) = Accepted (-123456789)
  /\ validate_phone_number (mkdb [] []) 123456789
     = Rejected "Phone number must be at least 10 digits.".
Proof. split; vm_compute; reflexivity. Qed.

(** X8. The approved limit is monotone in the income: of two registrations the
    one with the larger income never gets the smaller limit. *)
Theorem approved_limit_monotone (id1 id2 : Z) (r1 r2 : registration)
    (k1 k2 : Z) (c1 c2 : Customer) :
  reg_monthly_income r1 = Dec.mk k1 (-2) ->
  reg_monthly_income r2 = Dec.mk k2 (-2) ->
  0 <= k1 -> k1 <= k2 -> k2 < 10 ^ 10 ->
  create id1 r1 = Dec.Ok c1 ->
  create id2 r2 = Dec.Ok c2 ->
  Dec.compare (approved_limit c1) (approved_limit c2) <> Gt.
Proof.
  intros H1 H2 Hk1 Hle Hk2.
  destruct (registration_limit_spec k1 ltac:(lia)) as (L1 & E1 & M1 & B1).
  destruct (registration_limit_spec k2 ltac:(lia)) as (L2 & E2 & M2 & B2).
  unfold create. rewrite H1, H2, E1, E2. cbn [Dec.bind].
  intros Hc1 Hc2. injection Hc1 as <-. injection Hc2 as <-.
  cbn [approved_limit].
  unfold Dec.compare, Dec.align, Dec.of_int. cbn [Dec.coeff Dec.dexp].
  simpl (Z.min 0 0). simpl (0 - 0). rewrite !Z.mul_1_r.
  apply Z.compare_le_iff.
  apply Z.mod_divide in M1; [ | lia]. apply Z.mod_divide in M2; [ | lia].
  destruct M1 as [q1 ->]. destruct M2 as [q2 ->]. lia.
Qed.

Lemma approved_limit_monotone_witness :
  Dec.compare (Dec.of_int 1800000) (Dec.of_int 2200000) <> Gt.
Proof.
  apply (approved_limit_monotone 1 2
           (mkregistration 30 (Dec.mk 5000000 (-2)) 1234567890)
           (mkregistration 41 (Dec.mk 6000000 (-2)) 1234567891)
           5000000 6000000
           (mkCustomer 1 30 1234567890 (Dec.mk 5000000 (-2))
              (Dec.of_int 1800000) (Dec.of_int 0))
           (mkCustomer 2 41 1234567891 (Dec.mk 6000000 (-2))
              (Dec.of_int 2200000) (Dec.of_int 0)));
    try reflexivity; try lia; vm_compute; reflexivity.
Defined.

(** ** The views *)

Lemma get_customer_in (db : database) (cid : Z) (c : Customer) :
  get_customer db cid = Some c -> In c (customers db) /\ customer_id c = cid.
Proof.
  unfold get_customer. intros H. apply find_some in H.
  destruct H as [Hin Heq]. apply Z.eqb_eq in Heq. split; assumption.
Qed.

Lemma get_customer_none (db : database) (cid : Z) :
  get_customer db cid = None <->
  (forall c, In c (customers db) -> customer_id c <> cid).
Proof.
  unfold get_customer. split.
  - intros H c Hin Heq.
    pose proof (find_none _ _ H c Hin) as Hf. cbv beta in Hf.
    apply Z.eqb_neq in Hf. contradiction.
  - intros H. destruct (find _ _) as [c | ] eqn:E; [ | reflexivity].
    apply find_some in E. destruct E as [Hin Heq]. apply Z.eqb_eq in Heq.
    exfalso. exact (H c Hin Heq).
Qed.

Lemma add_months_later (d e : date) (n : Z) :
  1 <= month d <= 12 -> 1 <= n ->
  add_months d n = Some e -> date_leb d e = true.
Proof.
  intros Hm Hn. unfold add_months. cbv zeta.
  destruct (9999 <? _); [discriminate | ].
  intros H. injection H as <-. unfold date_leb. cbn [year month day].
  set (t := month d - 1 + n).
  assert (Ht : 1 <= t) by (unfold t; lia).
  pose proof (Z.div_pos t 12 ltac:(lia) ltac:(lia)) as Hq.
  destruct (Z.eq_dec (t / 12) 0) as [E0 | Hne].
  - rewrite E0, Z.add_0_r, Z.ltb_irrefl, Z.eqb_refl. cbn [orb andb].
    assert (Hlt : t < 12) by (apply Z.div_small_iff in E0; lia).
    rewrite Z.mod_small by lia.
    assert (Hmm : month d < t + 1) by (unfold t; lia).
    apply Z.ltb_lt in Hmm. rewrite Hmm. reflexivity.
  - assert (Hy : year d < year d + t / 12) by lia.
    apply Z.ltb_lt in Hy. rewrite Hy. reflexivity.
Qed.

Section ViewFacts.

Variable fsum : list float -> float.
Variable pow : Dec.decimal -> Dec.decimal -> Dec.result Dec.decimal.
Variable renders : body -> bool.

Lemma respond_cases (status : Z) (b : body) (failure : string) :
  respond renders status b failure = mkresponse status b
  \/ respond renders status b failure = mkresponse 500 (ErrorBody failure).
Proof. unfold respond. destruct (renders b); [left | right]; reflexivity. Qed.

(** The message of a decision on an existing customer is never
    "Customer not found". *)
Lemma existing_customer_message (db : database) (today : date) (cid : Z)
    (amount rate : Dec.decimal) (tenure_months : Z) (c : Customer)
    (d : decision) :
  get_customer db cid = Some c ->
  check_loan_eligibility fsum pow db today cid amount rate tenure_months
  = Dec.Ok d ->
  String.eqb (message d) "Customer not found" = false.
Proof.
  intros Hc. unfold check_loan_eligibility. rewrite Hc.
  destruct (calculate_monthly_installment _ _ _ _) as [inst | e0];
    cbn [Dec.bind]; [ | discriminate].
  destruct (Py.le _ _); [ | destruct (emis_exceed_half_salary _ _ _ _ _);
    [ | destruct (Dec.ltb _ _)]];
    intros H; injection H as <-; reflexivity.
Qed.

(** X9. For a request that passes validation, the eligibility view answers 404
    exactly when the customer does not exist. *)
Theorem eligibility_404_iff_missing (db : database) (today : date)
    (r : loan_request) :
  status_code (check_eligibility fsum pow renders db today (Some r)) = 404
  <-> get_customer db (req_customer_id r) = None.
Proof.
  unfold check_eligibility.
  destruct (get_customer db (req_customer_id r)) as [c | ] eqn:Hc.
  - split; [ | discriminate]. intros H. exfalso.
    destruct (check_loan_eligibility _ _ _ _ _ _ _ _) as [d | e] eqn:Hd;
      [ | discriminate H].
    rewrite (existing_customer_message _ _ _ _ _ _ c d Hc Hd) in H.
    rewrite andb_false_r in H.
    destruct (respond_cases 200
                (EligibilityBody (req_customer_id r) (approved d)
                   (req_interest_rate r) (corrected_interest_rate d)
                   (req_tenure r) (monthly_installment d))
                "Failed to check eligibility") as [E | E];
      rewrite E in H; discriminate H.
  - split; [reflexivity | ]. intros _.
    unfold check_loan_eligibility. rewrite Hc. reflexivity.
Qed.

(** X10. For a customer that does not exist the two views disagree: the
    eligibility view answers 404 "Customer not found", the loan view 500
    "Failed to process loan"; the store is left as it is. *)
Theorem missing_customer_404_versus_500 (db : database) (today : date)
    (new_loan_id : Z) (r : loan_request) :
  get_customer db (req_customer_id r) = None ->
  check_eligibility fsum pow renders db today (Some r)
  = mkresponse 404 (ErrorBody "Customer not found")
  /\ create_loan fsum pow renders db today new_loan_id (Some r)
     = (mkresponse 500 (ErrorBody "Failed to process loan"), db).
Proof.
  intros Hc. unfold check_eligibility, create_loan, check_loan_eligibility.
  rewrite Hc. split; reflexivity.
Qed.

(** X11. The loan view changes the store only when the decision is an
    approval: a rejection, an invalid request, a missing customer or an
    exception of the engine leaves both tables as they were. *)
Theorem store_changes_only_on_approval (db : database) (today : date)
    (new_loan_id : Z) (request : option loan_request) :
  snd (create_loan fsum pow renders db today new_loan_id request) <> db ->
  exists r d,
    request = Some r
    /\ check_loan_eligibility fsum pow db today (req_customer_id r)
         (req_loan_amount r) (req_interest_rate r) (req_tenure r) = Dec.Ok d
    /\ approved d = true.
Proof.
  unfold create_loan.
  destruct request as [r | ]; [ | intros H; exfalso; apply H; reflexivity].
  destruct (get_customer db (req_customer_id r)) as [c | ];
    [ | intros H; exfalso; apply H; reflexivity].
  destruct (check_loan_eligibility _ _ _ _ _ _ _ _) as [d | e] eqn:Hd;
    [ | intros H; exfalso; apply H; reflexivity].
  destruct (approved d) eqn:Ha;
    [ | intros H; exfalso; apply H; reflexivity].
  intros _. exists r, d. repeat split; reflexivity || assumption.
Qed.

Lemma get_customer_save (db : database) (x : Customer) (k : Z) :
  get_customer (save_customer db x) k
  = if k =? customer_id x
    then match get_customer db k with Some _ => Some x | None => None end
    else get_customer db k.
Proof.
  unfold get_customer, save_customer. cbn [customers].
  induction (customers db) as [ | c cs IH]; cbn [map find].
  - destruct (k =? customer_id x); reflexivity.
  - destruct (customer_id c =? customer_id x) eqn:Ecx.
    + apply Z.eqb_eq in Ecx.
      destruct (k =? customer_id x) eqn:Ek.
      * apply Z.eqb_eq in Ek. subst k.
        rewrite Z.eqb_refl, Ecx, Z.eqb_refl. reflexivity.
      * rewrite Z.eqb_sym, Ek, Ecx, Z.eqb_sym, Ek. exact IH.
    + destruct (customer_id c =? k) eqn:Eck; [ | exact IH].
      apply Z.eqb_eq in Eck. subst k. rewrite Ecx. reflexivity.
Qed.

Lemma save_customer_ids (db : database) (x : Customer) :
  map customer_id (customers (save_customer db x))
  = map customer_id (customers db).
Proof.
  unfold save_customer. cbn [customers]. rewrite map_map.
  apply map_ext. intros c.
  destruct (customer_id c =? customer_id x) eqn:E; [ | reflexivity].
  apply Z.eqb_eq in E. symmetry. exact E.
Qed.

Lemma insert_loan_some (db db1 : database) (l : Loan) :
  insert_loan db l = Some db1 ->
  db1 = mkdb (customers db) (all_loans db ++ [l])
  /\ (forall l0, In l0 (all_loans db) -> loan_id l0 <> loan_id l).
Proof.
  unfold insert_loan.
  destruct (existsb (fun l' => loan_id l' =? loan_id l) _) eqn:E;
    [discriminate | ].
  destruct (negb _); [discriminate | ].
  intros H. injection H as <-. split; [reflexivity | ].
  intros l0 Hin Heq.
  assert (existsb (fun l' => loan_id l' =? loan_id l) (all_loans db) = true).
  { apply existsb_exists. exists l0. split; [assumption | ].
    apply Z.eqb_eq, Heq. }
  congruence.
Qed.

Lemma find_appended (ls : list Loan) (l : Loan) (k : Z) :
  loan_id l = k ->
  (forall l0, In l0 ls -> loan_id l0 <> k) ->
  find (fun x => loan_id x =? k) (ls ++ [l]) = Some l.
Proof.
  intros <-.
  induction ls as [ | l0 ls IH]; intros Hfresh; cbn [app find].
  - rewrite Z.eqb_refl. reflexivity.
  - destruct (loan_id l0 =? loan_id l) eqn:E.
    + apply Z.eqb_eq in E. exfalso.
      apply (Hfresh l0); [left; reflexivity | exact E].
    + apply IH. intros l1 Hin. apply Hfresh. right. exact Hin.
Qed.

(** What stands behind an answer that reports an approved loan. *)
Lemma approved_answer_shape (db db' : database) (today : date)
    (new_loan_id : Z) (r : loan_request) (lid cid : Z) (ok : bool)
    (msg : string) (inst : Dec.decimal) :
  create_loan fsum pow renders db today new_loan_id (Some r)
  = (mkresponse 200 (LoanCreateBody (Some lid) cid ok msg inst), db') ->
  exists c d e,
    get_customer db cid = Some c
    /\ check_loan_eligibility fsum pow db today cid (req_loan_amount r)
         (req_interest_rate r) (req_tenure r) = Dec.Ok d
    /\ approved d = true
    /\ add_months today (req_tenure r) = Some e
    /\ calculate_monthly_installment pow (req_loan_amount r)
         (corrected_interest_rate d) (req_tenure r) = Dec.Ok inst
    /\ lid = new_loan_id /\ cid = req_customer_id r
    /\ (forall l0, In l0 (all_loans db) -> loan_id l0 <> lid)
    /\ db' = save_customer
               (mkdb (customers db)
                  (all_loans db
                   ++ [mkLoan lid cid (req_loan_amount r) (req_tenure r)
                         (corrected_interest_rate d) inst 0 today e]))
               (with_debt c (Dec.add (current_debt c) (req_loan_amount r))).
Proof.
  unfold create_loan. cbv zeta.
  destruct (get_customer db (req_customer_id r)) as [c | ] eqn:Hc;
    [ | discriminate].
  destruct (check_loan_eligibility _ _ _ _ _ _ _ _) as [d | e0] eqn:Hd;
    [ | discriminate].
  destruct (approved d) eqn:Ha.
  - destruct (add_months today (req_tenure r)) as [e | ] eqn:He;
      [ | discriminate].
    destruct (calculate_monthly_installment _ _ _ _) as [fin | e1] eqn:Hf;
      [ | discriminate].
    destruct (insert_loan db _) as [db1 | ] eqn:Hi; [ | discriminate].
    apply insert_loan_some in Hi. destruct Hi as [-> Hfresh].
    cbn [loan_id] in Hfresh.
    unfold respond. destruct (renders _); [ | discriminate].
    intros H. injection H as <- <- <- <- <- <-.
    exists c, d, e. repeat split; try assumption; reflexivity.
  - unfold respond. destruct (renders _); discriminate.
Qed.

(** X12. When the loan view reports an approved loan with id [lid], the loans
    table holds exactly one more row: it has the id [lid], which no
    earlier loan had, belongs to the customer of the request, starts today
    with no EMI paid, ends tenure months later, and [view_loan] in the new
    store finds it. *)
Theorem approved_answer_means_stored (db db' : database) (today : date)
    (new_loan_id : Z) (r : loan_request) (lid cid : Z) (ok : bool)
    (msg : string) (inst : Dec.decimal) :
  create_loan fsum pow renders db today new_loan_id (Some r)
  = (mkresponse 200 (LoanCreateBody (Some lid) cid ok msg inst), db') ->
  exists l,
    all_loans db' = all_loans db ++ [l]
    /\ get_loan db' lid = Some l
    /\ (forall l0, In l0 (all_loans db) -> loan_id l0 <> lid)
    /\ loan_id l = lid
    /\ customer l = req_customer_id r
    /\ loan_amount l = req_loan_amount r
    /\ tenure l = req_tenure r
    /\ monthly_repayment l = inst
    /\ emis_paid_on_time l = 0
    /\ start_date l = today
    /\ add_months today (req_tenure r) = Some (end_date l).
Proof.
  intros H. apply approved_answer_shape in H.
  destruct H as (c & d & e & Hc & Hd & Ha & He & Hf & -> & -> & Hfresh & ->).
  eexists. split; [reflexivity | ].
  split; [ | repeat split; try reflexivity; assumption].
  unfold get_loan, save_customer. cbn [all_loans].
  apply find_appended; [reflexivity | exact Hfresh].
Qed.

(** X13. When the loan view reports an approved loan, the debt of the customer
    has grown by the amount of the loan, the other fields of the customer
    are kept, and no other customer is touched. *)
Theorem approved_loan_raises_debt (db db' : database) (today : date)
    (new_loan_id : Z) (r : loan_request) (lid cid : Z) (ok : bool)
    (msg : string) (inst : Dec.decimal) :
  create_loan fsum pow renders db today new_loan_id (Some r)
  = (mkresponse 200 (LoanCreateBody (Some lid) cid ok msg inst), db') ->
  (exists c,
     get_customer db cid = Some c
     /\ get_customer db' cid
        = Some (with_debt c (Dec.add (current_debt c) (req_loan_amount r))))
  /\ (forall other, other <> cid ->
        get_customer db' other = get_customer db other)
  /\ map customer_id (customers db') = map customer_id (customers db).
Proof.
  intros H. apply approved_answer_shape in H.
  destruct H as (c & d & e & Hc & Hd & Ha & He & Hf & -> & -> & Hfresh & ->).
  pose proof (get_customer_in _ _ _ Hc) as [_ Hid].
  split; [ | split].
  - exists c. split; [assumption | ].
    rewrite get_customer_save. cbn [customer_id with_debt].
    rewrite Hid, Z.eqb_refl.
    change (get_customer (mkdb (customers db) _) (req_customer_id r))
      with (get_customer db (req_customer_id r)).
    rewrite Hc. reflexivity.
  - intros other Hne. rewrite get_customer_save. cbn [customer_id with_debt].
    rewrite Hid. apply Z.eqb_neq in Hne. rewrite Hne. reflexivity.
  - rewrite save_customer_ids. reflexivity.
Qed.

(** X14. A loan the view has just created is listed by [view_customer_loans]
    for its customer on the same day, with all its installments left. *)
Theorem created_loan_is_listed (db db' : database) (today : date)
    (new_loan_id : Z) (r : loan_request) (lid cid : Z) (ok : bool)
    (msg : string) (inst : Dec.decimal) :
  1 <= month today <= 12 ->
  1 <= req_tenure r ->
  create_loan fsum pow renders db today new_loan_id (Some r)
  = (mkresponse 200 (LoanCreateBody (Some lid) cid ok msg inst), db') ->
  exists items it,
    view_customer_loans renders db' today cid
    = respond renders 200 (LoanListBody items) "Failed to fetch customer loans"
    /\ In it items
    /\ item_loan_id it = lid
    /\ item_repayments_left it = req_tenure r.
Proof.
  intros Hm Hn H. apply approved_answer_shape in H.
  destruct H as (c & d & e & Hc & Hd & Ha & He & Hf & -> & -> & Hfresh & ->).
  pose proof (get_customer_in _ _ _ Hc) as [_ Hid].
  unfold view_customer_loans.
  rewrite get_customer_save. cbn [customer_id with_debt].
  rewrite Hid, Z.eqb_refl.
  change (get_customer (mkdb (customers db) _) (req_customer_id r))
    with (get_customer db (req_customer_id r)).
  rewrite Hc.
  eexists.
  exists (loan_item_of
            (mkLoan new_loan_id (req_customer_id r) (req_loan_amount r)
               (req_tenure r) (corrected_interest_rate d) inst 0 today e)).
  split; [reflexivity | ]. split.
  - apply in_map. unfold active_loans, loans_of. apply filter_In.
    split; [ | cbn [end_date]; exact (add_months_later _ _ _ Hm Hn He)].
    apply filter_In. split.
    + unfold save_customer. cbn [all_loans]. apply in_or_app. right.
      left. reflexivity.
    + cbn [customer customer_id]. apply Z.eqb_eq. symmetry. exact Hid.
  - cbn [loan_item_of item_loan_id item_repayments_left loan_id].
    split; [reflexivity | ].
    unfold repayments_left, int_max. cbn [tenure emis_paid_on_time].
    rewrite Z.sub_0_r.
    assert (E : (0 <? req_tenure r) = true) by (apply Z.ltb_lt; lia).
    rewrite E. reflexivity.
Qed.

(** X15. A quote and the loan that follows it agree: when, on the same store
    and day, the eligibility view answers a request with a quote and the
    loan view answers it with an approved loan, the quote was an
    approval, the installment of the loan is the quoted one and the loan
    is stored at the quoted corrected rate. *)
Theorem quote_matches_loan (db db' : database) (today : date)
    (new_loan_id : Z) (r : loan_request) (lid cid cid' : Z) (ok ok' : bool)
    (msg : string) (inst inst' requested corrected : Dec.decimal)
    (tenure_months : Z) :
  check_eligibility fsum pow renders db today (Some r)
  = mkresponse 200
      (EligibilityBody cid' ok' requested corrected tenure_months inst') ->
  create_loan fsum pow renders db today new_loan_id (Some r)
  = (mkresponse 200 (LoanCreateBody (Some lid) cid ok msg inst), db') ->
  ok' = true /\ inst = inst'
  /\ exists l, get_loan db' lid = Some l /\ interest_rate l = corrected.
Proof.
  intros Hq H. apply approved_answer_shape in H.
  destruct H as (c & d & e & Hc & Hd & Ha & He & Hf & -> & -> & Hfresh & ->).
  unfold check_eligibility in Hq. rewrite Hd, Ha in Hq.
  cbn [negb andb] in Hq. unfold respond in Hq.
  destruct (renders _); [ | discriminate Hq].
  injection Hq as <- <- <- <- <- <-.
  rewrite (decision_installment fsum pow _ _ _ _ _ _ c d Hc Hd) in Hf.
  injection Hf as <-.
  split; [reflexivity | ]. split; [reflexivity | ].
  exists (mkLoan new_loan_id (req_customer_id r) (req_loan_amount r)
            (req_tenure r) (corrected_interest_rate d) (monthly_installment d)
            0 today e).
  split; [ | reflexivity].
  unfold get_loan, save_customer. cbn [all_loans].
  apply find_appended; [reflexivity | exact Hfresh].
Qed.

(** X16. The loan view keeps the store consistent: primary keys stay unique
    and every loan keeps an owner. *)
Theorem create_loan_preserves_consistency (db : database) (today : date)
    (new_loan_id : Z) (request : option loan_request) :
  db_consistent db ->
  db_consistent (snd (create_loan fsum pow renders db today new_loan_id request)).
Proof.
  intros Hdb. unfold create_loan. cbv zeta.
  destruct request as [r | ]; [ | exact Hdb].
  destruct (get_customer db (req_customer_id r)) as [c | ] eqn:Hc;
    [ | exact Hdb].
  destruct (check_loan_eligibility _ _ _ _ _ _ _ _) as [d | e0];
    [ | exact Hdb].
  destruct (approved d); [ | exact Hdb].
  destruct (add_months today (req_tenure r)) as [e | ]; [ | exact Hdb].
  destruct (calculate_monthly_installment _ _ _ _) as [fin | e1];
    [ | exact Hdb].
  destruct (insert_loan db _) as [db1 | ] eqn:Hi; [ | exact Hdb].
  apply insert_loan_some in Hi. destruct Hi as [-> Hfresh].
  cbn [loan_id] in Hfresh. cbn [snd].
  destruct Hdb as (Hc1 & Hl1 & Hfk).
  pose proof (get_customer_in _ _ _ Hc) as [Hin Hid].
  unfold db_consistent. rewrite save_customer_ids.
  cbn [customers all_loans save_customer]. split; [exact Hc1 | ]. split.
  - rewrite map_app. cbn [map loan_id].
    apply NoDup_app; [exact Hl1 | repeat constructor; intros [] | ].
    intros i Hi1 [<- | []].
    apply in_map_iff in Hi1. destruct Hi1 as (l0 & Hl0 & Hin0).
    exact (Hfresh l0 Hin0 Hl0).
  - intros l Hl. apply in_app_or in Hl.
    assert (Hsame : forall k, In k (map customer_id (customers db)) ->
              exists c', In c' (map (fun c' => if customer_id c' =? customer_id
                                   (with_debt c (Dec.add (current_debt c)
                                                   (req_loan_amount r)))
                               then with_debt c (Dec.add (current_debt c)
                                                   (req_loan_amount r))
                               else c') (customers db))
                         /\ customer_id c' = k).
    { intros k Hk. apply in_map_iff in Hk. destruct Hk as (c0 & <- & Hc0).
      eexists. split; [apply in_map; exact Hc0 | ].
      cbv beta. destruct (customer_id c0 =? _) eqn:E; [ | reflexivity].
      apply Z.eqb_eq in E. symmetry. exact E. }
    apply Hsame.
    destruct Hl as [Hl | [<- | []]].
    + destruct (Hfk l Hl) as (c0 & Hc0 & <-). apply in_map. exact Hc0.
    + cbn [customer]. rewrite <- Hid. apply in_map. exact Hin.
Qed.

End ViewFacts.

(** Customer 7 is missing from the store of the new customer. *)
Lemma missing_customer_404_versus_500_witness :
  check_eligibility Py.fsum_naive Dec_power renders_all new_customer_db a_day
    (Some (mkrequest 7 (Dec.mk 10000000 (-2)) (Dec.mk 1000 (-2)) 12))
  = mkresponse 404 (ErrorBody "Customer not found")
  /\ create_loan Py.fsum_naive Dec_power renders_all new_customer_db a_day 1
       (Some (mkrequest 7 (Dec.mk 10000000 (-2)) (Dec.mk 1000 (-2)) 12))
     = (mkresponse 500 (ErrorBody "Failed to process loan"), new_customer_db).
Proof.
  exact (missing_customer_404_versus_500 Py.fsum_naive Dec_power renders_all
           new_customer_db a_day 1
           (mkrequest 7 (Dec.mk 10000000 (-2)) (Dec.mk 1000 (-2)) 12)
           eq_refl).
Defined.

Lemma store_changes_only_on_approval_witness :
  exists r d,
    Some first_request = Some r
    /\ check_loan_eligibility Py.fsum_naive Dec_power new_customer_db a_day
         (req_customer_id r) (req_loan_amount r) (req_interest_rate r)
         (req_tenure r) = Dec.Ok d
    /\ approved d = true.
Proof.
  apply (store_changes_only_on_approval Py.fsum_naive Dec_power renders_all
           new_customer_db a_day 1 (Some first_request)).
  vm_compute. discriminate.
Defined.

Lemma approved_answer_means_stored_witness :
  exists l,
    all_loans store_after_first_loan = all_loans new_customer_db ++ [l]
    /\ get_loan store_after_first_loan 1 = Some l
    /\ (forall l0, In l0 (all_loans new_customer_db) -> loan_id l0 <> 1)
    /\ loan_id l = 1
    /\ customer l = req_customer_id first_request
    /\ loan_amount l = req_loan_amount first_request
    /\ tenure l = req_tenure first_request
    /\ monthly_repayment l = Dec.mk 888488 (-2)
    /\ emis_paid_on_time l = 0
    /\ start_date l = a_day
    /\ add_months a_day (req_tenure first_request) = Some (end_date l).
Proof.
  apply (approved_answer_means_stored Py.fsum_naive Dec_power renders_all
           new_customer_db store_after_first_loan a_day 1 first_request 1 1
           true "Loan approved successfully" (Dec.mk 888488 (-2))).
  vm_compute. reflexivity.
Defined.

Lemma approved_loan_raises_debt_witness :
  (exists c,
     get_customer new_customer_db 1 = Some c
     /\ get_customer store_after_first_loan 1
        = Some (with_debt c (Dec.add (current_debt c)
                               (req_loan_amount first_request))))
  /\ (forall other, other <> 1 ->
        get_customer store_after_first_loan other
        = get_customer new_customer_db other)
  /\ map customer_id (customers store_after_first_loan)
     = map customer_id (customers new_customer_db).
Proof.
  apply (approved_loan_raises_debt Py.fsum_naive Dec_power renders_all
           new_customer_db store_after_first_loan a_day 1 first_request 1 1
           true "Loan approved successfully" (Dec.mk 888488 (-2))).
  vm_compute. reflexivity.
Defined.

Lemma created_loan_is_listed_witness :
  exists items it,
    view_customer_loans renders_all store_after_first_loan a_day 1
    = respond renders_all 200 (LoanListBody items)
        "Failed to fetch customer loans"
    /\ In it items
    /\ item_loan_id it = 1
    /\ item_repayments_left it = req_tenure first_request.
Proof.
  apply (created_loan_is_listed Py.fsum_naive Dec_power renders_all
           new_customer_db store_after_first_loan a_day 1 first_request 1 1
           true "Loan approved successfully" (Dec.mk 888488 (-2)));
    [vm_compute; split; discriminate | vm_compute; discriminate
    | vm_compute; reflexivity].
Defined.

Lemma quote_matches_loan_witness :
  true = true /\ Dec.mk 888488 (-2) = Dec.mk 888488 (-2)
  /\ exists l, get_loan store_after_first_loan 1 = Some l
               /\ interest_rate l = rate_12.
Proof.
  apply (quote_matches_loan Py.fsum_naive Dec_power renders_all
           new_customer_db store_after_first_loan a_day 1 first_request 1 1 1
           true true "Loan approved successfully" (Dec.mk 888488 (-2))
           (Dec.mk 888488 (-2)) (Dec.mk 1000 (-2)) rate_12 12);
    vm_compute; reflexivity.
Defined.

Lemma create_loan_preserves_consistency_witness :
  db_consistent
    (snd (create_loan Py.fsum_naive Dec_power renders_all new_customer_db
            a_day 1 (Some first_request))).
Proof.
  apply (create_loan_preserves_consistency Py.fsum_naive Dec_power
           renders_all new_customer_db a_day 1 (Some first_request)).
  repeat split.
  - repeat constructor; intros [].
  - constructor.
  - intros l [].
Defined.

(** ** Registration *)

Lemma insert_customer_some (db db' : database) (c : Customer) :
  insert_customer db c = Some db' ->
  db' = mkdb (customers db ++ [c]) (all_loans db)
  /\ (forall c0, In c0 (customers db) -> customer_id c0 <> customer_id c)
  /\ (forall c0, In c0 (customers db) -> phone_number c0 <> phone_number c).
Proof.
  unfold insert_customer.
  destruct (existsb (fun c' => customer_id c' =? customer_id c) _) eqn:E1;
    [discriminate | ].
  destruct (existsb (fun c' => phone_number c' =? phone_number c) _) eqn:E2;
    [discriminate | ].
  destruct (negb _); [discriminate | ].
  intros H. injection H as <-. split; [reflexivity | ]. split.
  - intros c0 Hin Heq.
    assert (existsb (fun c' => customer_id c' =? customer_id c) (customers db)
            = true).
    { apply existsb_exists. exists c0. split; [assumption | ].
      apply Z.eqb_eq, Heq. }
    congruence.
  - intros c0 Hin Heq.
    assert (existsb (fun c' => phone_number c' =? phone_number c) (customers db)
            = true).
    { apply existsb_exists. exists c0. split; [assumption | ].
      apply Z.eqb_eq, Heq. }
    congruence.
Qed.

Lemma create_fields (new_id : Z) (v : registration) (cust : Customer) :
  create new_id v = Dec.Ok cust ->
  customer_id cust = new_id
  /\ age cust = reg_age v
  /\ phone_number cust = reg_phone_number v
  /\ monthly_salary cust = reg_monthly_income v
  /\ current_debt cust = Dec.of_int 0
  /\ exists L, registration_limit (reg_monthly_income v) = Dec.Ok L
               /\ approved_limit cust = Dec.of_int L.
Proof.
  unfold create.
  destruct (registration_limit (reg_monthly_income v)) as [L | e];
    cbn [Dec.bind]; [ | discriminate].
  intros H. injection H as <-. cbn.
  repeat split. exists L. split; reflexivity.
Qed.

Section RegistrationFacts.

Variable renders : body -> bool.

(** What stands behind a 201 answer. *)
Lemma registered_shape (db db' : database) (new_id : Z)
    (fields : option registration) (b : body) :
  register_customer renders db new_id fields = (mkresponse 201 b, db') ->
  exists v cust,
    fields = Some v
    /\ b = RegistrationBody cust
    /\ create new_id v = Dec.Ok cust
    /\ insert_customer db cust = Some db'.
Proof.
  unfold register_customer.
  destruct fields as [v | ]; [ | discriminate].
  destruct (validate_phone_number db (reg_phone_number v)); [ | discriminate].
  destruct (create new_id v) as [cust | e] eqn:Hc; [ | discriminate].
  destruct (insert_customer db cust) as [db1 | ] eqn:Hi; [ | discriminate].
  unfold respond. destruct (renders _); [ | discriminate].
  intros H. injection H as <- <-.
  exists v, cust. repeat split; assumption.
Qed.

Lemma find_customer_appended (cs : list Customer) (c : Customer) :
  (forall c0, In c0 cs -> customer_id c0 <> customer_id c) ->
  find (fun x => customer_id x =? customer_id c) (cs ++ [c]) = Some c.
Proof.
  induction cs as [ | c0 cs IH]; intros Hfresh; cbn [app find].
  - rewrite Z.eqb_refl. reflexivity.
  - destruct (customer_id c0 =? customer_id c) eqn:E.
    + apply Z.eqb_eq in E. exfalso.
      apply (Hfresh c0); [left; reflexivity | exact E].
    + apply IH. intros c1 Hin. apply Hfresh. right. exact Hin.
Qed.

(** X17. A 201 answer means one customer was added: the row has the issued
    key, the age, phone number and income of the request and no debt, can
    be fetched by its key, no loan was touched, and a consistent store is
    still consistent. *)
Theorem registration_stores_customer (db db' : database) (new_id : Z)
    (fields : option registration) (b : body) :
  register_customer renders db new_id fields = (mkresponse 201 b, db') ->
  exists v cust,
    fields = Some v
    /\ b = RegistrationBody cust
    /\ customers db' = customers db ++ [cust]
    /\ all_loans db' = all_loans db
    /\ get_customer db' new_id = Some cust
    /\ get_customer db new_id = None
    /\ customer_id cust = new_id
    /\ age cust = reg_age v
    /\ phone_number cust = reg_phone_number v
    /\ monthly_salary cust = reg_monthly_income v
    /\ current_debt cust = Dec.of_int 0
    /\ (db_consistent db -> db_consistent db').
Proof.
  intros H. apply registered_shape in H.
  destruct H as (v & cust & -> & -> & Hc & Hi).
  apply insert_customer_some in Hi. destruct Hi as (-> & Hid & Hph).
  destruct (create_fields _ _ _ Hc) as (H1 & H2 & H3 & H4 & H5 & _).
  exists v, cust. cbn [customers all_loans].
  repeat split; try assumption.
  - unfold get_customer. cbn [customers]. rewrite <- H1.
    apply find_customer_appended. exact Hid.
  - apply get_customer_none. intros c0 Hin. rewrite <- H1. apply Hid, Hin.
  - destruct H as (Hn & _). cbn [customers]. rewrite map_app. cbn [map].
    apply NoDup_app; [exact Hn | repeat constructor; intros [] | ].
    intros i Hi1 [<- | []].
    apply in_map_iff in Hi1. destruct Hi1 as (c0 & Hc0 & Hin0).
    exact (Hid c0 Hin0 Hc0).
  - destruct H as (_ & Hl & _). exact Hl.
  - destruct H as (_ & _ & Hfk). cbn [all_loans customers].
    intros l Hl. destruct (Hfk l Hl) as (c0 & Hc0 & Heq).
    exists c0. split; [apply in_or_app; left; exact Hc0 | exact Heq].
Qed.

(** X18. Once a registration has succeeded, every later registration with the
    same phone number is answered 400 and stores nothing, whatever its
    other fields and whatever key the sequence would issue. *)
Theorem duplicate_phone_rejected (db db' : database) (id1 id2 : Z)
    (b : body) (v1 v2 : registration) :
  register_customer renders db id1 (Some v1) = (mkresponse 201 b, db') ->
  reg_phone_number v2 = reg_phone_number v1 ->
  register_customer renders db' id2 (Some v2)
  = (mkresponse 400 ValidationErrors, db').
Proof.
  intros H Hph. apply registered_shape in H.
  destruct H as (v & cust & Hv & -> & Hc & Hi). injection Hv as <-.
  apply insert_customer_some in Hi. destruct Hi as (-> & _ & _).
  destruct (create_fields _ _ _ Hc) as (_ & _ & H3 & _).
  unfold register_customer, validate_phone_number. cbn [customers].
  rewrite existsb_app. cbn [existsb]. rewrite H3, Hph, Z.eqb_refl.
  rewrite orb_true_r. reflexivity.
Qed.

End RegistrationFacts.

(** X19. A customer who has just been registered in a consistent store has
    the credit score 50, on any day and under any float accumulation. *)
Theorem registered_customer_scores_50 (renders : body -> bool)
    (fsum : list float -> float) (db db' : database) (new_id : Z)
    (v : registration) (b : body) (k : Z) (today : date) :
  db_consistent db ->
  reg_monthly_income v = Dec.mk k (-2) ->
  0 <= k < 10 ^ 10 ->
  register_customer renders db new_id (Some v) = (mkresponse 201 b, db') ->
  calculate_credit_score fsum db' today new_id = Py.PyInt 50.
Proof.
  intros Hdb Hinc Hk H. apply registered_shape in H.
  destruct H as (v0 & cust & Hv & -> & Hc & Hi). injection Hv as <-.
  apply insert_customer_some in Hi. destruct Hi as (-> & Hid & _).
  destruct (create_fields _ _ _ Hc) as (H1 & _ & _ & _ & _ & L & HL & Hlim).
  destruct (registration_limit_spec k Hk) as (L' & HL' & _ & Hb).
  rewrite Hinc in HL. rewrite HL' in HL. injection HL as <-.
  apply (no_loans_score_50 fsum _ today new_id cust).
  - unfold get_customer. cbn [customers]. rewrite <- H1.
    apply find_customer_appended. exact Hid.
  - rewrite Hlim. cbn [Dec.coeff Dec.of_int]. lia.
  - unfold loans_of. cbn [all_loans].
    destruct Hdb as (_ & _ & Hfk).
    induction (all_loans db) as [ | l ls IH]; [reflexivity | ].
    cbn [filter].
    destruct (customer l =? customer_id cust) eqn:E.
    + exfalso. apply Z.eqb_eq in E.
      destruct (Hfk l (or_introl eq_refl)) as (c0 & Hc0 & Heq).
      apply (Hid c0 Hc0). congruence.
    + apply IH. intros l1 Hl1. apply Hfk. right. exact Hl1.
Qed.

Lemma registration_stores_customer_witness :
  exists v cust,
    Some first_registration = Some v
    /\ RegistrationBody first_customer = RegistrationBody cust
    /\ customers (mkdb [first_customer] []) = customers empty_db ++ [cust]
    /\ all_loans (mkdb [first_customer] []) = all_loans empty_db
    /\ get_customer (mkdb [first_customer] []) 1 = Some cust
    /\ get_customer empty_db 1 = None
    /\ customer_id cust = 1
    /\ age cust = reg_age v
    /\ phone_number cust = reg_phone_number v
    /\ monthly_salary cust = reg_monthly_income v
    /\ current_debt cust = Dec.of_int 0
    /\ (db_consistent empty_db -> db_consistent (mkdb [first_customer] [])).
Proof.
  apply (registration_stores_customer renders_all empty_db
           (mkdb [first_customer] []) 1 (Some first_registration)
           (RegistrationBody first_customer)).
  vm_compute. reflexivity.
Defined.

Lemma duplicate_phone_rejected_witness :
  register_customer renders_all (mkdb [first_customer] []) 2
    (Some (mkregistration 45 (Dec.mk 9000000 (-2)) 1234567890))
  = (mkresponse 400 ValidationErrors, mkdb [first_customer] []).
Proof.
  apply (duplicate_phone_rejected renders_all empty_db
           (mkdb [first_customer] []) 1 2
           (RegistrationBody first_customer) first_registration
           (mkregistration 45 (Dec.mk 9000000 (-2)) 1234567890));
    vm_compute; reflexivity.
Defined.

Lemma registered_customer_scores_50_witness :
  calculate_credit_score Py.fsum_naive (mkdb [first_customer] []) a_day 1
  = Py.PyInt 50.
Proof.
  apply (registered_customer_scores_50 renders_all Py.fsum_naive empty_db
           (mkdb [first_customer] []) 1 first_registration
           (RegistrationBody first_customer) 5000000 a_day).
  - repeat split; [constructor | constructor | intros l []].
  - reflexivity.
  - lia.
  - vm_compute. reflexivity.
Defined.

(** ** [fix_sequences] *)

Lemma fold_max_ge (xs : list Z) : forall a,
  a <= fold_left Z.max xs a
  /\ (forall x, In x xs -> x <= fold_left Z.max xs a).
Proof.
  induction xs as [ | y ys IH]; intros a; cbn [fold_left].
  - split; [lia | intros x []].
  - destruct (IH (Z.max a y)) as [H1 H2]. split; [lia | ].
    intros x [<- | Hin]; [lia | apply H2, Hin].
Qed.

Lemma fixed_sequence_above (ids : list Z) (i : Z) :
  In i ids -> i < fixed_sequence_value ids.
Proof.
  unfold fixed_sequence_value, max_id. destruct ids as [ | a rest]; [intros [] | ].
  destruct (fold_max_ge rest a) as [H1 H2].
  intros [<- | Hin]; [lia | ]. specialize (H2 i Hin). lia.
Qed.

Lemma fold_max_in (xs : list Z) : forall a,
  In (fold_left Z.max xs a) (a :: xs).
Proof.
  induction xs as [ | y ys IH]; intros a; cbn [fold_left].
  - left. reflexivity.
  - destruct (IH (Z.max a y)) as [H | H].
    + rewrite <- H.
      destruct (Z.max_spec a y) as [[_ E] | [_ E]]; rewrite E;
        [right; left | left]; reflexivity.
    + right. right. exact H.
Qed.

(** X20. The value [fix_sequences] sets a sequence to is one above the
    largest key of the table, and 1 on an empty table: every key of the
    table is below it, so no key at or above it (the keys the sequence
    issues from then on) is the key of an existing loan or customer, and
    the bound is tight. *)
Theorem fixed_sequence_prevents_duplicates (db : database) (k : Z) :
  (fixed_sequence_value (map loan_id (all_loans db)) <= k ->
   get_loan db k = None
   /\ existsb (fun l' => loan_id l' =? k) (all_loans db) = false)
  /\ (fixed_sequence_value (map customer_id (customers db)) <= k ->
      get_customer db k = None
      /\ existsb (fun c' => customer_id c' =? k) (customers db) = false)
  /\ (forall ids,
        (forall i, In i ids -> i < fixed_sequence_value ids)
        /\ (ids = [] -> fixed_sequence_value ids = 1)
        /\ (ids <> [] -> In (fixed_sequence_value ids - 1) ids)).
Proof.
  split; [ | split].
  - intros Hk.
    assert (E : existsb (fun l' => loan_id l' =? k) (all_loans db) = false).
    { destruct (existsb _ _) eqn:E; [ | reflexivity].
      exfalso. apply existsb_exists in E. destruct E as (l0 & Hin & Heq).
      apply Z.eqb_eq in Heq.
      pose proof (fixed_sequence_above (map loan_id (all_loans db))
                    (loan_id l0) (in_map loan_id _ _ Hin)).
      lia. }
    split; [ | exact E].
    unfold get_loan. destruct (find _ _) as [l0 | ] eqn:F; [ | reflexivity].
    exfalso. apply find_some in F. destruct F as [Hin Heq].
    assert (existsb (fun l' => loan_id l' =? k) (all_loans db) = true)
      by (apply existsb_exists; exists l0; split; assumption).
    congruence.
  - intros Hk.
    assert (E : existsb (fun c' => customer_id c' =? k) (customers db) = false).
    { destruct (existsb _ _) eqn:E; [ | reflexivity].
      exfalso. apply existsb_exists in E. destruct E as (c0 & Hin & Heq).
      apply Z.eqb_eq in Heq.
      pose proof (fixed_sequence_above (map customer_id (customers db))
                    (customer_id c0) (in_map customer_id _ _ Hin)).
      lia. }
    split; [ | exact E].
    apply get_customer_none. intros c0 Hin Heq.
    assert (existsb (fun c' => customer_id c' =? k) (customers db) = true).
    { apply existsb_exists. exists c0. split; [assumption | ].
      apply Z.eqb_eq, Heq. }
    congruence.
  - intros ids. split; [apply fixed_sequence_above | ]. split.
    + intros ->. reflexivity.
    + destruct ids as [ | a rest]; [intros H; contradiction | intros _].
      unfold fixed_sequence_value, max_id.
      replace (fold_left Z.max rest a + 1 - 1) with (fold_left Z.max rest a)
        by lia.
      apply fold_max_in.
Qed.

(** ** [calculate_current_debt] *)

Lemma recomputed_debt_loans (db1 db2 : database) (today : date)
    (c1 c2 : Customer) :
  all_loans db1 = all_loans db2 -> customer_id c1 = customer_id c2 ->
  recomputed_debt db1 today c1 = recomputed_debt db2 today c2.
Proof.
  intros Hl Hc. unfold recomputed_debt, active_loans, loans_of.
  rewrite Hl, Hc. reflexivity.
Qed.

Lemma find_self_nodup (cs : list Customer) (c : Customer) :
  NoDup (map customer_id cs) -> In c cs ->
  find (fun x => customer_id x =? customer_id c) cs = Some c.
Proof.
  induction cs as [ | c0 cs IH]; intros Hnd Hin; [destruct Hin | ].
  cbn [map] in Hnd. inversion Hnd as [ | ? ? Hnot Hnd']; subst.
  cbn [find]. destruct Hin as [-> | Hin].
  - rewrite Z.eqb_refl. reflexivity.
  - destruct (customer_id c0 =? customer_id c) eqn:E.
    + exfalso. apply Z.eqb_eq in E. apply Hnot. rewrite E.
      apply in_map. exact Hin.
    + apply IH; assumption.
Qed.

Lemma find_absent (cs : list Customer) (k : Z) :
  ~ In k (map customer_id cs) ->
  find (fun x => customer_id x =? k) cs = None.
Proof.
  induction cs as [ | c0 cs IH]; intros Hnot; [reflexivity | ].
  cbn [find]. destruct (customer_id c0 =? k) eqn:E.
  - exfalso. apply Z.eqb_eq in E. apply Hnot. left. exact E.
  - apply IH. intros Hin. apply Hnot. right. exact Hin.
Qed.

(** The loop over the customers [cs], from any store [acc] with the loans
    [L]: a row is replaced by the customer of [cs] with its key, the debt
    recomputed, and kept when [cs] has no such customer. *)
Lemma debt_fold (today : date) (L : list Loan) (cs : list Customer) :
  NoDup (map customer_id cs) ->
  forall acc, all_loans acc = L ->
  fold_left (debt_step today) cs acc
  = mkdb
      (map (fun c' =>
              match find (fun c => customer_id c =? customer_id c') cs with
              | Some c => with_debt c (recomputed_debt (mkdb [] L) today c)
              | None => c'
              end) (customers acc)) L.
Proof.
  induction cs as [ | c cs IH]; intros Hnd acc HL.
  - cbn [fold_left find]. rewrite map_id.
    destruct acc as [cu lo]. cbn in HL. subst lo. reflexivity.
  - cbn [map] in Hnd. inversion Hnd as [ | ? ? Hnot Hnd']; subst.
    cbn [fold_left]. rewrite (IH Hnd' (debt_step today acc c) eq_refl).
    f_equal. unfold debt_step at 1, save_customer. cbn [customers].
    rewrite map_map. apply map_ext. intros c'.
    cbn [customer_id with_debt].
    rewrite (recomputed_debt_loans acc (mkdb [] (all_loans acc)) today c c
               eq_refl eq_refl).
    cbn [find].
    rewrite (Z.eqb_sym (customer_id c) (customer_id c')).
    destruct (customer_id c' =? customer_id c) eqn:E; [ | reflexivity].
    cbn [customer_id with_debt].
    rewrite (find_absent cs (customer_id c) Hnot). reflexivity.
Qed.

Lemma debt_task_map (today : date) (db : database) :
  NoDup (map customer_id (customers db)) ->
  calculate_current_debt db today
  = with_debts (fun c => recomputed_debt db today c) db.
Proof.
  intros Hnd. unfold calculate_current_debt, with_debts.
  rewrite (debt_fold today (all_loans db) (customers db) Hnd db eq_refl).
  f_equal. apply map_ext_in. intros c Hin.
  rewrite (find_self_nodup _ _ Hnd Hin).
  rewrite (recomputed_debt_loans (mkdb [] (all_loans db)) db today c c
             eq_refl eq_refl).
  reflexivity.
Qed.

Lemma get_customer_map_debt (db : database) (f : Customer -> Dec.decimal)
    (cid : Z) :
  get_customer (with_debts f db) cid
  = match get_customer db cid with
    | Some c => Some (with_debt c (f c))
    | None => None
    end.
Proof.
  unfold get_customer, with_debts. cbn [customers].
  induction (customers db) as [ | c cs IH]; [reflexivity | ].
  cbn [map find customer_id with_debt].
  destruct (customer_id c =? cid); [reflexivity | exact IH].
Qed.

Lemma dec_max0_nonneg (d : Dec.decimal) : 0 <= Dec.coeff (dec_max0 d).
Proof.
  unfold dec_max0, Dec.ltb, Dec.compare, Dec.align.
  cbn [Dec.coeff Dec.dexp Dec.of_int]. rewrite Z.mul_0_l.
  destruct (0 ?= _) eqn:E; cbn [Dec.coeff Dec.of_int]; try lia.
  destruct (Z_lt_le_dec (Dec.coeff d) 0) as [Hneg | ]; [ | assumption].
  exfalso.
  match type of E with
  | (0 ?= ?c * 10 ^ ?k) = Lt =>
      assert (Hlt : 0 < c * 10 ^ k) by exact E;
      pose proof (Z.pow_nonneg 10 k ltac:(lia)) as Hp
  end.
  nia.
Qed.


(** X22. After the debt task no customer has a negative debt, whatever the
    loans say (an overpaid loan counts against the others, the total is
    cut at zero). *)
Theorem debt_task_debts_nonnegative (db : database) (today : date)
    (c : Customer) :
  NoDup (map customer_id (customers db)) ->
  In c (customers (calculate_current_debt db today)) ->
  0 <= Dec.coeff (current_debt c).
Proof.
  intros Hnd. rewrite (debt_task_map today db Hnd).
  unfold with_debts. cbn [customers].
  intros Hin. apply in_map_iff in Hin. destruct Hin as (c0 & <- & _).
  cbn [current_debt with_debt]. apply dec_max0_nonneg.
Qed.

(** X23. Running the debt task twice on the same day gives what running it
    once gives. *)
Theorem debt_task_idempotent (db : database) (today : date) :
  NoDup (map customer_id (customers db)) ->
  calculate_current_debt (calculate_current_debt db today) today
  = calculate_current_debt db today.
Proof.
  intros Hnd.
  assert (Hnd' : NoDup (map customer_id
                          (customers (calculate_current_debt db today)))).
  { rewrite (debt_task_map today db Hnd). unfold with_debts.
    cbn [customers]. rewrite map_map. cbn [customer_id with_debt]. exact Hnd. }
  rewrite (debt_task_map today _ Hnd').
  rewrite (debt_task_map today db Hnd). unfold with_debts.
  cbn [customers all_loans].
  f_equal. rewrite map_map. apply map_ext. intros c.
  unfold with_debt at 1. cbn [customer_id age phone_number monthly_salary
                               approved_limit with_debt].
  unfold with_debt. f_equal.
Qed.

(** ** The engine and the stored debt *)

Section DebtBlind.

Variable fsum : list float -> float.
Variable pow : Dec.decimal -> Dec.decimal -> Dec.result Dec.decimal.
Variable f : Customer -> Dec.decimal.

Lemma score_ignores_debt (db : database) (today : date) (cid : Z) :
  calculate_credit_score fsum (with_debts f db) today cid
  = calculate_credit_score fsum db today cid.
Proof.
  unfold calculate_credit_score.
  rewrite get_customer_map_debt.
  destruct (get_customer db cid) as [c | ]; reflexivity.
Qed.

Lemma decision_ignores_debt (db : database) (today : date) (cid : Z)
    (amount rate : Dec.decimal) (tenure_months : Z) :
  check_loan_eligibility fsum pow (with_debts f db) today cid amount rate
    tenure_months
  = check_loan_eligibility fsum pow db today cid amount rate tenure_months.
Proof.
  unfold check_loan_eligibility. rewrite score_ignores_debt.
  rewrite get_customer_map_debt.
  destruct (get_customer db cid) as [c | ]; reflexivity.
Qed.

End DebtBlind.

(** X24. The engine never reads the stored debt: replacing the debt of every
    customer by any value changes no credit score and no eligibility
    decision. *)
Theorem engine_never_reads_debt (fsum : list float -> float)
    (pow : Dec.decimal -> Dec.decimal -> Dec.result Dec.decimal)
    (f : Customer -> Dec.decimal) (db : database) (today : date) (cid : Z)
    (amount rate : Dec.decimal) (tenure_months : Z) :
  calculate_credit_score fsum (with_debts f db) today cid
  = calculate_credit_score fsum db today cid
  /\ check_loan_eligibility fsum pow (with_debts f db) today cid amount rate
       tenure_months
     = check_loan_eligibility fsum pow db today cid amount rate tenure_months.
Proof.
  split.
  - apply score_ignores_debt.
  - apply decision_ignores_debt.
Qed.

(** X25. The debt task changes no decision: an eligibility check gives the
    same outcome before and after it, on any day. *)
Theorem debt_task_keeps_decisions (fsum : list float -> float)
    (pow : Dec.decimal -> Dec.decimal -> Dec.result Dec.decimal)
    (db : database) (task_day today : date) (cid : Z)
    (amount rate : Dec.decimal) (tenure_months : Z) :
  NoDup (map customer_id (customers db)) ->
  check_loan_eligibility fsum pow (calculate_current_debt db task_day) today
    cid amount rate tenure_months
  = check_loan_eligibility fsum pow db today cid amount rate tenure_months.
Proof.
  intros Hnd. rewrite (debt_task_map task_day db Hnd).
  apply (decision_ignores_debt fsum pow
           (fun c => recomputed_debt db task_day c)).
Qed.


Lemma debt_task_debts_nonnegative_witness :
  0 <= Dec.coeff (current_debt (with_debt new_customer (Dec.mk 10000000 (-2)))).
Proof.
  apply (debt_task_debts_nonnegative store_after_first_loan a_day
           (with_debt new_customer (Dec.mk 10000000 (-2)))).
  - repeat constructor. intros [].
  - vm_compute. left. reflexivity.
Defined.

Lemma debt_task_idempotent_witness :
  calculate_current_debt (calculate_current_debt store_after_first_loan a_day)
    a_day
  = calculate_current_debt store_after_first_loan a_day.
Proof.
  apply (debt_task_idempotent store_after_first_loan a_day).
  repeat constructor. intros [].
Defined.

Lemma debt_task_keeps_decisions_witness :
  check_loan_eligibility Py.fsum_naive Dec_power
    (calculate_current_debt store_after_first_loan a_day) a_day 1
    (Dec.mk 10000000 (-2)) (Dec.mk 1000 (-2)) 12
  = check_loan_eligibility Py.fsum_naive Dec_power store_after_first_loan
      a_day 1 (Dec.mk 10000000 (-2)) (Dec.mk 1000 (-2)) 12.
Proof.
  apply (debt_task_keeps_decisions Py.fsum_naive Dec_power
           store_after_first_loan a_day a_day 1).
  repeat constructor. intros [].
Defined.

(** ** The read views *)

(** X26. [view_customer_loans] lists exactly the active loans of the customer
    asked for: every entry comes from a loan of that customer whose end
    date is today or later, every such loan has its entry, and no entry
    has a negative number of repayments left. *)
Theorem customer_loans_lists_active_only (renders : body -> bool)
    (db : database) (today : date) (cid : Z) (items : list loan_item) :
  view_customer_loans renders db today cid
  = mkresponse 200 (LoanListBody items) ->
  get_customer db cid <> None
  /\ (forall it,
        In it items <->
        exists l, In l (all_loans db) /\ customer l = cid
                  /\ is_active today l = true /\ it = loan_item_of l)
  /\ (forall it, In it items -> 0 <= item_repayments_left it).
Proof.
  unfold view_customer_loans.
  destruct (get_customer db cid) as [c | ] eqn:Hc; [ | discriminate].
  pose proof (get_customer_in _ _ _ Hc) as [_ Hid].
  unfold respond. destruct (renders _); [ | discriminate].
  intros H. injection H as <-.
  assert (Hiff : forall it,
            In it (map loan_item_of (active_loans db today c)) <->
            exists l, In l (all_loans db) /\ customer l = cid
                      /\ is_active today l = true /\ it = loan_item_of l).
  { intros it. unfold active_loans, loans_of, is_active.
    rewrite in_map_iff. split.
    - intros (l & <- & Hin). apply filter_In in Hin. destruct Hin as [Hin Ha].
      apply filter_In in Hin. destruct Hin as [Hin Ho].
      apply Z.eqb_eq in Ho. exists l. repeat split; try assumption.
      congruence.
    - intros (l & Hin & Ho & Ha & ->). exists l. split; [reflexivity | ].
      apply filter_In. split; [ | exact Ha].
      apply filter_In. split; [exact Hin | ].
      apply Z.eqb_eq. congruence. }
  split; [discriminate | ]. split; [exact Hiff | ].
  intros it Hin. apply Hiff in Hin. destruct Hin as (l & _ & _ & _ & ->).
  cbn [loan_item_of item_repayments_left]. unfold repayments_left, int_max.
  destruct (0 <? _) eqn:E; [apply Z.ltb_lt in E | ]; lia.
Qed.

Lemma customer_loans_lists_active_only_witness :
  get_customer store_after_first_loan 1 <> None
  /\ (forall it,
        In it [loan_item_of first_loan] <->
        exists l, In l (all_loans store_after_first_loan) /\ customer l = 1
                  /\ is_active a_day l = true /\ it = loan_item_of l)
  /\ (forall it, In it [loan_item_of first_loan] ->
                 0 <= item_repayments_left it).
Proof.
  apply (customer_loans_lists_active_only renders_all store_after_first_loan
           a_day 1 [loan_item_of first_loan]).
  vm_compute. reflexivity.
Defined.

(** X27. [view_loan] answers 404 exactly for a loan id that is not in the
    table; a 200 answer carries the loan of that id and the customer it
    refers to; and in a consistent store every loan of the table is
    served with its owner (the only failure left is the rendering). *)
Theorem loan_detail_has_owner (renders : body -> bool) (db : database)
    (lid : Z) :
  db_consistent db ->
  (status_code (view_loan renders db lid) = 404 <-> get_loan db lid = None)
  /\ (forall l owner,
        view_loan renders db lid = mkresponse 200 (LoanDetailBody l owner) ->
        get_loan db lid = Some l /\ loan_id l = lid
        /\ get_customer db (customer l) = Some owner
        /\ customer_id owner = customer l)
  /\ (forall l,
        get_loan db lid = Some l ->
        exists owner,
          view_loan renders db lid
          = respond renders 200 (LoanDetailBody l owner)
              "Failed to fetch loan details").
Proof.
  intros (_ & _ & Hfk). unfold view_loan.
  destruct (get_loan db lid) as [l0 | ] eqn:Hl.
  - pose proof Hl as Hl'. unfold get_loan in Hl'. apply find_some in Hl'.
    destruct Hl' as [Hin Heq]. apply Z.eqb_eq in Heq.
    destruct (Hfk l0 Hin) as (c & Hc & Hid).
    destruct (get_customer db (customer l0)) as [c' | ] eqn:Hg;
      [ | exfalso;
          apply (proj1 (get_customer_none db (customer l0)) Hg c Hc Hid)].
    split; [ | split].
    + unfold respond. split; [ | discriminate].
      destruct (renders _); discriminate.
    + intros l owner. unfold respond. destruct (renders _); [ | discriminate].
      intros H. injection H as <- <-.
      repeat split; try assumption.
      apply (get_customer_in _ _ _ Hg).
    + intros l H. injection H as <-. exists c'. reflexivity.
  - split; [split; reflexivity | ]. split.
    + intros l owner H. discriminate H.
    + intros l H. discriminate H.
Qed.

Lemma loan_detail_has_owner_witness :
  (status_code (view_loan renders_all store_after_first_loan 1) = 404
   <-> get_loan store_after_first_loan 1 = None)
  /\ (forall l owner,
        view_loan renders_all store_after_first_loan 1
        = mkresponse 200 (LoanDetailBody l owner) ->
        get_loan store_after_first_loan 1 = Some l /\ loan_id l = 1
        /\ get_customer store_after_first_loan (customer l) = Some owner
        /\ customer_id owner = customer l)
  /\ (forall l,
        get_loan store_after_first_loan 1 = Some l ->
        exists owner,
          view_loan renders_all store_after_first_loan 1
          = respond renders_all 200 (LoanDetailBody l owner)
              "Failed to fetch loan details").
Proof.
  apply (loan_detail_has_owner renders_all store_after_first_loan 1).
  repeat split.
  - repeat constructor. intros [].
  - repeat constructor. intros [].
  - intros l [<- | []]. eexists. split; [left; reflexivity | reflexivity].
Defined.

(** ** The stepped components of the score *)

(** X28. Both stepped tables stay between 0 and 15 and never give more points
    for more loans. *)
Theorem step_tables_monotone (n m : Z) :
  n <= m ->
  0 <= loan_count_points m <= loan_count_points n
  /\ loan_count_points n <= 15
  /\ 0 <= current_year_points m <= current_year_points n
  /\ current_year_points n <= 15.
Proof.
  intros Hnm. unfold loan_count_points, current_year_points.
  repeat match goal with
         | |- context [?a <=? ?b] => destruct (Z.leb_spec a b)
         end; lia.
Qed.

Lemma step_tables_monotone_witness :
  0 <= loan_count_points 6 <= loan_count_points 3
  /\ loan_count_points 3 <= 15
  /\ 0 <= current_year_points 6 <= current_year_points 3
  /\ current_year_points 3 <= 15.
Proof. apply (step_tables_monotone 3 6). lia. Defined.
